(** * Passport-photo compliance engine and crop transform

    A shallow embedding of [src/lib/compliance.ts] ([checkCompliance],
    [getComplianceSummary]), of [getComplianceErrorMessage] from
    [passportPhotoProcessor.ts] and of the geometry of [cropToPassport]
    from [src/lib/cropPhoto.ts].

    Number model.  The code is embedded twice.

    In the first embedding a JavaScript [number] is a real number:
    [+ - * /] are the field operations of [R], the comparisons are decided
    with the order of [R], and [Math.atan2] is the two-argument arctangent.
    It leaves out what binary64 adds: rounding, NaN, infinities (a division
    by zero is 0 here) and signed zeros.  The statements made about it are
    inequalities, verdicts and exact values that do not depend on the last
    bits of a result, for finite inputs and non-zero divisors.

    The second embedding, [Binary64], has a [number] as an IEEE 754
    binary64 float with the operations rounded to nearest, and is used
    where the last bits matter.  Array lengths are naturals. *)

From Stdlib Require Import Reals Lra Lia ZArith Bool List Ascii String
  DecimalString.
From Stdlib Require PrimFloat FloatOps SpecFloat.
Import ListNotations.

Set Implicit Arguments.

Local Open Scope R_scope.

(** ** JavaScript operators and built-ins used by the sources *)

(** [a >= b], [a <= b], [a > b], [a < b] on numbers. *)
Definition Rgeb (a b : R) : bool := if Rge_dec a b then true else false.
Definition Rleb (a b : R) : bool := if Rle_dec a b then true else false.
Definition Rgtb (a b : R) : bool := if Rgt_dec a b then true else false.
Definition Rltb (a b : R) : bool := if Rlt_dec a b then true else false.

Module Math.

Definition abs (v : R) : R := Rabs v.
Definition max (a b : R) : R := Rmax a b.
Definition min (a b : R) : R := Rmin a b.

(** [Math.atan2(y, x)]: the angle of the point [(x, y)], in [(-PI, PI]];
    [Math.atan2(0, 0)] is [0]. *)
Definition atan2 (y x : R) : R :=
  if Rlt_dec 0 x then atan (y / x)
  else if Rlt_dec x 0 then
    if Rle_dec 0 y then atan (y / x) + PI else atan (y / x) - PI
  else
    if Rlt_dec 0 y then PI / 2
    else if Rlt_dec y 0 then - (PI / 2)
    else 0.

(** [Math.round(v)]: the nearest integer, a tie going up. *)
Definition round (v : R) : Z := Zfloor (v + / 2).

End Math.

(** Template-literal rendering of a non-negative integer. *)
Definition string_of_nat (n : nat) : string :=
  NilEmpty.string_of_uint (Nat.to_uint n).

(** Template-literal rendering of an integer-valued number of magnitude
    below 1e21, where all digits are printed (from 1e21 on JavaScript
    prints an exponent, which this function does not). *)
Definition string_of_Z (z : Z) : string :=
  match z with
  | Zneg p => ("-" ++ string_of_nat (Pos.to_nat p))%string
  | _ => string_of_nat (Z.to_nat z)
  end.

(** [v.toFixed(1)] for [|v| < 1e21]: the sign, then the integer [n]
    nearest to [10 * |v|] (a tie going up) printed with one digit after
    the point. *)
Definition toFixed1 (v : R) : string :=
  let digits (a : R) :=
    let n := Z.to_nat (Zfloor (a * 10 + / 2)) in
    (string_of_nat (n / 10) ++ "." ++ string_of_nat (n mod 10))%string in
  if Rlt_dec v 0 then ("-" ++ digits (- v))%string else digits v.

(** ** Data model ([faceDetection.ts], [compliance.ts]) *)

Module Point.
Record t : Type := mk { x : R; y : R }.
End Point.

Module BoundingBox.
Record t : Type := mk { originX : R; originY : R; width : R; height : R }.
End BoundingBox.

Module FaceLandmarks.
Record t : Type := mk {
  leftEye : Point.t;
  rightEye : Point.t;
  nose : Point.t;
  mouth : Point.t
}.
End FaceLandmarks.

Module FaceDetectionResult.
Record t : Type := mk {
  boundingBox : BoundingBox.t;
  landmarks : FaceLandmarks.t;
  confidence : R
}.
End FaceDetectionResult.

Module ComplianceMetrics.
Record t : Type := mk {
  faceCount : nat;
  headHeightPercent : R;
  eyeHeightPercent : R;
  headTiltDegrees : R;
  horizontalCenterOffset : R
}.

(** Field assignments [metrics.f = v]. *)
Definition set_headHeightPercent (m : t) (v : R) : t :=
  mk (faceCount m) v (eyeHeightPercent m) (headTiltDegrees m)
     (horizontalCenterOffset m).
Definition set_eyeHeightPercent (m : t) (v : R) : t :=
  mk (faceCount m) (headHeightPercent m) v (headTiltDegrees m)
     (horizontalCenterOffset m).
Definition set_headTiltDegrees (m : t) (v : R) : t :=
  mk (faceCount m) (headHeightPercent m) (eyeHeightPercent m) v
     (horizontalCenterOffset m).
Definition set_horizontalCenterOffset (m : t) (v : R) : t :=
  mk (faceCount m) (headHeightPercent m) (eyeHeightPercent m)
     (headTiltDegrees m) v.
End ComplianceMetrics.

Module ComplianceCheck.
Record t : Type := mk {
  id : string;
  label : string;
  passed : bool;
  message : string
}.
End ComplianceCheck.

Module ComplianceResult.
Record t : Type := mk {
  passed : bool;
  checks : list ComplianceCheck.t;
  metrics : ComplianceMetrics.t;
  faceData : option FaceDetectionResult.t
}.
End ComplianceResult.

(** [checks.push(c)] *)
Definition push (A : Type) (l : list A) (a : A) : list A := l ++ [a].

(** ** [compliance.ts] *)

Section Compliance.

Import Point BoundingBox FaceLandmarks FaceDetectionResult.

(** Angle, in degrees, of the segment from [p1] to [p2]. *)
Definition calculateAngle (p1 p2 : Point.t) : R :=
  let deltaY := y p2 - y p1 in
  let deltaX := x p2 - x p1 in
  let angleRad := Math.atan2 deltaY deltaX in
  (angleRad * 180) / PI.

(** Check 1, computed before the early return. *)
Definition faceCountCheck (faces : list FaceDetectionResult.t)
  : ComplianceCheck.t :=
  ComplianceCheck.mk
    "face-count"
    "Single Face Detected"
    (List.length faces =? 1)%nat
    (if (List.length faces =? 0)%nat
     then "No face detected. Please ensure your face is clearly visible."
     else if (1 <? List.length faces)%nat
     then (string_of_nat (List.length faces)
           ++ " faces detected. Only one person should be in the photo.")%string
     else "One face detected ✓").

(** The part of [checkCompliance] after the early return: [face] is
    [faces[0]], [checks] and [metrics] are the array and the object
    built so far. *)
Definition checkSingleFace (imageWidth imageHeight : R)
    (face : FaceDetectionResult.t)
    (checks : list ComplianceCheck.t) (metrics : ComplianceMetrics.t)
  : ComplianceResult.t :=
  let boundingBox := boundingBox face in
  let landmarks := landmarks face in

  (* Calculate head height *)
  let headHeightPixels := height boundingBox * 1.25 in
  let headHeightPercent := (headHeightPixels / imageHeight) * 100 in
  let metrics :=
    ComplianceMetrics.set_headHeightPercent metrics headHeightPercent in

  (* Check 2: Head resolution quality *)
  let minHeadPixels := 150 in
  let headSizeCheck :=
    ComplianceCheck.mk
      "head-size"
      "Head Size"
      (Rgeb headHeightPixels minHeadPixels)
      (if Rltb headHeightPixels minHeadPixels
       then ("Face too small (" ++ string_of_Z (Math.round headHeightPixels)
             ++ "px). Move closer to the camera for better quality.")%string
       else ("Head size sufficient ("
             ++ string_of_Z (Math.round headHeightPixels)
             ++ "px) ✓")%string) in
  let checks := push checks headSizeCheck in

  (* Calculate eye position *)
  let eyeCenterY := (y (leftEye landmarks) + y (rightEye landmarks)) / 2 in
  let eyeCenterX := (x (leftEye landmarks) + x (rightEye landmarks)) / 2 in
  let eyeHeightFromBottom := imageHeight - eyeCenterY in
  let eyeHeightPercent := (eyeHeightFromBottom / imageHeight) * 100 in
  let metrics :=
    ComplianceMetrics.set_eyeHeightPercent metrics eyeHeightPercent in

  (* Check 3: Sufficient margin around face for clean crop *)
  let estimatedFullHead := height boundingBox in
  let targetHeadPercent := 0.595 in
  let cropSourceHeight := estimatedFullHead / targetHeadPercent in
  let headTop :=
    originY boundingBox - (estimatedFullHead - height boundingBox) in
  let targetEyeFromTop := cropSourceHeight * (1 - 0.625) in
  let neededAboveEyes := targetEyeFromTop in
  let availableAboveEyes := eyeCenterY in
  let neededBelowEyes := cropSourceHeight - targetEyeFromTop in
  let availableBelowEyes := imageHeight - eyeCenterY in
  let hasEnoughMargin :=
    Rgeb availableAboveEyes (neededAboveEyes * 0.95)
    && Rgeb availableBelowEyes (neededBelowEyes * 0.95) in
  let eyeHeightCheck :=
    ComplianceCheck.mk
      "eye-height"
      "Framing Margin"
      hasEnoughMargin
      (if negb hasEnoughMargin
       then if Rltb availableAboveEyes (neededAboveEyes * 0.95)
            then "Not enough space above head. Move down or step back from the camera."
            else "Not enough space below chin. Move up or step back from the camera."
       else "Sufficient framing margin for crop ✓") in
  let checks := push checks eyeHeightCheck in

  (* Calculate head tilt from eye alignment *)
  let eyeAngle := calculateAngle (leftEye landmarks) (rightEye landmarks) in
  let headTiltDegrees :=
    if Rgtb (Math.abs eyeAngle) 90
    then 180 - Math.abs eyeAngle
    else Math.abs eyeAngle in
  let metrics :=
    ComplianceMetrics.set_headTiltDegrees metrics headTiltDegrees in

  (* Check 4: Head tilt *)
  let headTiltCheck :=
    ComplianceCheck.mk
      "head-tilt"
      "Head Alignment"
      (Rleb headTiltDegrees 5)
      (if Rgtb headTiltDegrees 5
       then ("Head is tilted " ++ toFixed1 headTiltDegrees
             ++ "°. Keep your head level.")%string
       else ("Head alignment correct (tilt: " ++ toFixed1 headTiltDegrees
             ++ "°) ✓")%string) in
  let checks := push checks headTiltCheck in

  (* Calculate horizontal centering *)
  let faceCenterX := originX boundingBox + width boundingBox / 2 in
  let imageCenterX := imageWidth / 2 in
  let horizontalOffset := Math.abs (faceCenterX - imageCenterX) in
  let horizontalOffsetPercent := (horizontalOffset / imageWidth) * 100 in
  let metrics :=
    ComplianceMetrics.set_horizontalCenterOffset
      metrics horizontalOffsetPercent in

  (* Check 5: Face centered horizontally *)
  let centeringCheck :=
    ComplianceCheck.mk
      "horizontal-centering"
      "Horizontal Centering"
      (Rleb horizontalOffsetPercent 10)
      (if Rgtb horizontalOffsetPercent 10
       then if Rltb faceCenterX imageCenterX
            then "Face too far left. Center yourself in the frame."
            else "Face too far right. Center yourself in the frame."
       else "Face centered horizontally ✓") in
  let checks := push checks centeringCheck in

  let allPassed := forallb ComplianceCheck.passed checks in

  ComplianceResult.mk allPassed checks metrics (Some face).

(** [checkCompliance(imageWidth, imageHeight, faces)].  The early
    return is taken when [faces.length !== 1]; otherwise [faces[0]] is
    the only element. *)
Definition checkCompliance (imageWidth imageHeight : R)
    (faces : list FaceDetectionResult.t) : ComplianceResult.t :=
  let checks : list ComplianceCheck.t := [] in
  let metrics := ComplianceMetrics.mk (List.length faces) 0 0 0 0 in
  let checks := push checks (faceCountCheck faces) in
  match faces with
  | [face] => checkSingleFace imageWidth imageHeight face checks metrics
  | _ => ComplianceResult.mk false checks metrics None
  end.

(** [getComplianceSummary(result)] *)
Definition getComplianceSummary (result : ComplianceResult.t) : string :=
  if ComplianceResult.passed result
  then "Photo meets all US passport requirements ✓"
  else
    let failedCount :=
      List.length (filter (fun c => negb (ComplianceCheck.passed c))
                     (ComplianceResult.checks result)) in
    (string_of_nat failedCount ++ " requirement"
     ++ (if (1 <? failedCount)%nat then "s" else "") ++ " not met")%string.

(** [getComplianceErrorMessage(compliance)] of
    [passportPhotoProcessor.ts]; [None] is [null]. *)
Definition getComplianceErrorMessage (compliance : ComplianceResult.t)
  : option string :=
  if ComplianceResult.passed compliance then None
  else
    let failedChecks :=
      filter (fun c => negb (ComplianceCheck.passed c))
             (ComplianceResult.checks compliance) in
    match failedChecks with
    | [] => None
    | first :: _ =>
        let criticalCheck :=
          match find (fun c => String.eqb (ComplianceCheck.id c) "face-count")
                     failedChecks with
          | Some c => c
          | None => first
          end in
        Some (ComplianceCheck.message criticalCheck)
    end.

End Compliance.

(** [compliance.checks.find(c => c.id === id)], the way
    [AnnotatedPhoto.tsx] looks a check up by its id. *)
Definition findCheck (id : string) (result : ComplianceResult.t)
  : option ComplianceCheck.t :=
  find (fun c => String.eqb (ComplianceCheck.id c) id)
       (ComplianceResult.checks result).

(** ** [cropPhoto.ts] *)

Module Image.
(** [HTMLImageElement | HTMLCanvasElement], as far as it is read. *)
Record t : Type := mk { width : R; height : R }.
End Image.

(** The calls made on the 2d context, in order. *)
Inductive CanvasOp : Type :=
| FillRect (fillStyle : string) (x y w h : R)
| DrawImage (image : Image.t) (sx sy sWidth sHeight dx dy dWidth dHeight : R).

Module Canvas.
Record t : Type := mk { width : R; height : R; ops : list CanvasOp }.
End Canvas.

(** The numbers [cropToPassport] computes before it draws. *)
Module CropGeometry.
Record t : Type := mk {
  scale : R;
  sourceCropWidth : R;
  sourceCropHeight : R;
  idealCropX : R;        (* [sourceCropX] before the clamp *)
  idealCropY : R;        (* [sourceCropY] before the clamp *)
  sourceCropX : R;
  sourceCropY : R;
  actualCropWidth : R;
  actualCropHeight : R
}.
End CropGeometry.

Section CropPhoto.

Import Point BoundingBox FaceLandmarks FaceDetectionResult.

Definition outputSize : R := 600.

Definition cropGeometry (sourceWidth sourceHeight : R)
    (faceData : FaceDetectionResult.t) : CropGeometry.t :=
  let boundingBox := boundingBox faceData in
  let landmarks := landmarks faceData in

  (* Calculate eye center position *)
  let eyeCenterY := (y (leftEye landmarks) + y (rightEye landmarks)) / 2 in
  let eyeCenterX := (x (leftEye landmarks) + x (rightEye landmarks)) / 2 in

  (* Target eye position *)
  let targetEyeHeightFromBottom := outputSize * 0.625 in
  let targetEyeY := outputSize - targetEyeHeightFromBottom in

  (* Target head height *)
  let targetHeadHeightPercent := 0.595 in
  let targetHeadHeight := outputSize * targetHeadHeightPercent in

  let currentHeadHeight := height boundingBox * 1.25 in
  let scale := targetHeadHeight / currentHeadHeight in

  (* Source crop dimensions *)
  let sourceCropWidth := outputSize / scale in
  let sourceCropHeight := outputSize / scale in

  let idealCropX := eyeCenterX - sourceCropWidth / 2 in
  let idealCropY :=
    eyeCenterY - (outputSize - targetEyeHeightFromBottom) / scale in

  (* Ensure we don't crop outside the source image boundaries *)
  let sourceCropX :=
    Math.max 0 (Math.min idealCropX (sourceWidth - sourceCropWidth)) in
  let sourceCropY :=
    Math.max 0 (Math.min idealCropY (sourceHeight - sourceCropHeight)) in

  (* Handle edge cases where the crop area is larger than the source *)
  let actualCropWidth :=
    Math.min sourceCropWidth (sourceWidth - sourceCropX) in
  let actualCropHeight :=
    Math.min sourceCropHeight (sourceHeight - sourceCropY) in

  CropGeometry.mk scale sourceCropWidth sourceCropHeight
                  idealCropX idealCropY sourceCropX sourceCropY
                  actualCropWidth actualCropHeight.

(** [cropToPassport(image, faceData)].  [hasContext] says whether
    [canvas.getContext('2d')] gave a context; without one the function
    throws, which is the [inl] result. *)
Definition cropToPassport (hasContext : bool) (image : Image.t)
    (faceData : FaceDetectionResult.t) : string + Canvas.t :=
  if negb hasContext then inl "Failed to get canvas context"%string
  else
    let g := cropGeometry (Image.width image) (Image.height image) faceData in
    inr (Canvas.mk outputSize outputSize
           [ FillRect "#FFFFFF" 0 0 outputSize outputSize;
             DrawImage image
               (CropGeometry.sourceCropX g) (CropGeometry.sourceCropY g)
               (CropGeometry.actualCropWidth g)
               (CropGeometry.actualCropHeight g)
               0 0 outputSize outputSize ]).

End CropPhoto.

(** ** Inputs used in the statements *)

(** The same detection with the two eye landmarks exchanged. *)
Definition swapEyes (face : FaceDetectionResult.t) : FaceDetectionResult.t :=
  let lm := FaceDetectionResult.landmarks face in
  FaceDetectionResult.mk
    (FaceDetectionResult.boundingBox face)
    (FaceLandmarks.mk (FaceLandmarks.rightEye lm) (FaceLandmarks.leftEye lm)
                      (FaceLandmarks.nose lm) (FaceLandmarks.mouth lm))
    (FaceDetectionResult.confidence face).

(** A face given by its bounding box and the two eye points; nose and
    mouth, which no computation reads, sit below the eyes. *)
Definition faceOf (originX originY width height : R) (leftEye rightEye : Point.t)
  : FaceDetectionResult.t :=
  FaceDetectionResult.mk
    (BoundingBox.mk originX originY width height)
    (FaceLandmarks.mk leftEye rightEye
       (Point.mk (originX + width / 2) (originY + height / 2))
       (Point.mk (originX + width / 2) (originY + height * 0.75)))
    0.9.

(** [eyeCenterY] of [checkCompliance] and of [cropToPassport]: the mean
    of the two eye landmarks' [y]. *)
Definition eyeCenterY (face : FaceDetectionResult.t) : R :=
  (Point.y (FaceLandmarks.leftEye (FaceDetectionResult.landmarks face))
   + Point.y (FaceLandmarks.rightEye (FaceDetectionResult.landmarks face))) / 2.

(** The [passed] flag of the check with the given id, when it is there. *)
Definition checkPassed (id : string) (result : ComplianceResult.t)
  : option bool :=
  option_map ComplianceCheck.passed (findCheck id result).

(** The compliant photo: bounding box 300 x 300 centred at x = 500, both
    eyes at y = 450, in a 1000 x 1000 image. *)
Definition compliantFace : FaceDetectionResult.t :=
  faceOf 350 300 300 300 (Point.mk 560 450) (Point.mk 440 450).

(** A large face high in a 1000 x 1000 image: bounding box height 400,
    both eyes at y = 250. *)
Definition highFace : FaceDetectionResult.t :=
  faceOf 300 100 400 400 (Point.mk 580 250) (Point.mk 420 250).

(** A close-up in a 1000 x 1000 image: bounding box 500 x 500, both eyes
    at y = 450. *)
Definition closeUpFace : FaceDetectionResult.t :=
  faceOf 250 250 500 500 (Point.mk 580 450) (Point.mk 420 450).

(** The failure a display should lead with, in the words of the
    specification: the face-count failure if there is one, else the first
    failing check in list order. *)
Definition criticalFailure (result : ComplianceResult.t)
  : option ComplianceCheck.t :=
  let failing (c : ComplianceCheck.t) := negb (ComplianceCheck.passed c) in
  match find (fun c => failing c
                       && String.eqb (ComplianceCheck.id c) "face-count")
             (ComplianceResult.checks result) with
  | Some c => Some c
  | None => find failing (ComplianceResult.checks result)
  end.

(** A helper "selects the most actionable failure message" when, on every
    failed result, it returns the message of [criticalFailure]. *)
Definition selectsCriticalMessage
    (helper : ComplianceResult.t -> option string) : Prop :=
  forall (result : ComplianceResult.t) (c : ComplianceCheck.t),
    ComplianceResult.passed result = false ->
    criticalFailure result = Some c ->
    helper result = Some (ComplianceCheck.message c).


(** The tilt normalisation of [checkCompliance], as a function of the
    angle in degrees. *)
Definition normalizeTilt (eyeAngle : R) : R :=
  if Rgtb (Math.abs eyeAngle) 90
  then 180 - Math.abs eyeAngle
  else Math.abs eyeAngle.

(** ** [faceDetection.ts]: from detector output to detection results *)

(** MediaPipe's [Detection], as far as [detectFaces] reads it: an
    optional bounding box, optional keypoints with coordinates relative
    to the image, and the categories with their scores. *)
Module NormalizedKeypoint.
Record t : Type := mk { x : R; y : R }.
End NormalizedKeypoint.

Module Category.
Record t : Type := mk { score : R }.
End Category.

Module Detection.
Record t : Type := mk {
  boundingBox : option BoundingBox.t;
  keypoints : option (list NormalizedKeypoint.t);
  categories : option (list Category.t)
}.
End Detection.

(** [v || 0] for a number that may be [undefined]. *)
Definition orZero (v : option R) : R :=
  match v with
  | Some n => n
  | None => 0
  end.

(** [keypoints[i]] under the guard [keypoints.length >= 4]. *)
Definition keypointAt (keypoints : list NormalizedKeypoint.t) (i : nat)
  : NormalizedKeypoint.t :=
  nth i keypoints (NormalizedKeypoint.mk 0 0).

(** [extractLandmarks(detection, imageWidth, imageHeight)] *)
Definition extractLandmarks (detection : Detection.t)
    (imageWidth imageHeight : R) : FaceLandmarks.t :=
  let keypoints :=
    match Detection.keypoints detection with
    | Some k => k
    | None => []
    end in
  let scaled (k : NormalizedKeypoint.t) :=
    Point.mk (NormalizedKeypoint.x k * imageWidth)
             (NormalizedKeypoint.y k * imageHeight) in
  let rightEye := Point.mk 0 0 in
  let leftEye := Point.mk 0 0 in
  let nose := Point.mk 0 0 in
  let mouth := Point.mk 0 0 in
  if (4 <=? List.length keypoints)%nat
  then
    let rightEye := scaled (keypointAt keypoints 0) in
    let leftEye := scaled (keypointAt keypoints 1) in
    let nose := scaled (keypointAt keypoints 2) in
    let mouth := scaled (keypointAt keypoints 3) in
    FaceLandmarks.mk leftEye rightEye nose mouth
  else FaceLandmarks.mk leftEye rightEye nose mouth.

(** The function [detectFaces] maps over [detections.detections]. *)
Definition toFaceDetectionResult (imageWidth imageHeight : R)
    (detection : Detection.t) : FaceDetectionResult.t :=
  let box := Detection.boundingBox detection in
  FaceDetectionResult.mk
    (BoundingBox.mk
       (orZero (option_map BoundingBox.originX box))
       (orZero (option_map BoundingBox.originY box))
       (orZero (option_map BoundingBox.width box))
       (orZero (option_map BoundingBox.height box)))
    (extractLandmarks detection imageWidth imageHeight)
    (orZero (match Detection.categories detection with
             | Some (c :: _) => Some (Category.score c)
             | _ => None
             end)).

(** [detectFaces(imageElement)] for an image or canvas element, the
    detector being initialised.  [detected] is what
    [faceDetector.detect(imageElement)] does: it throws ([inl], with the
    error's message) or returns the detections. *)
Definition detectFaces (detected : string + list Detection.t)
    (imageElement : Image.t) : string + list FaceDetectionResult.t :=
  match detected with
  | inl message => inl ("Face detection failed: " ++ message)%string
  | inr detections =>
      let imageWidth := Image.width imageElement in
      let imageHeight := Image.height imageElement in
      inr (map (toFaceDetectionResult imageWidth imageHeight) detections)
  end.

(** ** [passportPhotoProcessor.ts] *)

Module ProcessingResult.
Record t (Blob : Type) : Type := mk {
  compliance : ComplianceResult.t;
  croppedCanvas : option Canvas.t;
  croppedDataURL : option string;
  croppedBlob : option Blob;
  originalImage : Image.t
}.
End ProcessingResult.

Section Processor.

(** The browser's encoders: [canvas.toDataURL(format, quality)] and the
    blob [canvas.toBlob] hands to its callback ([None] is [null]). *)
Variable Blob : Type.
Variable toDataURL : Canvas.t -> string -> R -> string.
Variable toBlob : Canvas.t -> string -> R -> option Blob.

(** [canvasToDataURL(canvas, format, quality)] of [cropPhoto.ts] *)
Definition canvasToDataURL (canvas : Canvas.t) (format : string)
    (quality : R) : string :=
  toDataURL canvas format quality.

(** [canvasToBlob(canvas, format, quality)] of [cropPhoto.ts]; a
    rejected promise is [inl]. *)
Definition canvasToBlob (canvas : Canvas.t) (format : string)
    (quality : R) : string + Blob :=
  match toBlob canvas format quality with
  | Some blob => inr blob
  | None => inl "Failed to create blob from canvas"%string
  end.

(** [processPassportPhoto(imageFile)] for an [HTMLImageElement].
    [initError] is the outcome of [initializeFaceDetector()] ([None]: it
    returned), [detected] that of the detector, [hasContext] whether a 2d
    context can be had.  A thrown error or rejected promise is [inl]. *)
Definition processPassportPhoto (initError : option string)
    (detected : string + list Detection.t) (hasContext : bool)
    (imageElement : Image.t) : string + ProcessingResult.t Blob :=
  (* Step 2: Initialize face detector *)
  match initError with
  | Some message =>
      inl ("Failed to initialize face detector: " ++ message)%string
  | None =>
  (* Step 3: Detect faces *)
  match detectFaces detected imageElement with
  | inl e => inl e
  | inr faces =>
  (* Step 4: Check compliance *)
  let compliance :=
    checkCompliance (Image.width imageElement) (Image.height imageElement)
                    faces in
  (* Step 5: If compliant, crop the photo *)
  match (if ComplianceResult.passed compliance
         then ComplianceResult.faceData compliance else None) with
  | Some faceData =>
      match cropToPassport hasContext imageElement faceData with
      | inl e => inl e
      | inr croppedCanvas =>
          let croppedDataURL :=
            canvasToDataURL croppedCanvas "image/jpeg" 0.95 in
          match canvasToBlob croppedCanvas "image/jpeg" 0.95 with
          | inl e => inl e
          | inr croppedBlob =>
              inr (ProcessingResult.mk compliance (Some croppedCanvas)
                     (Some croppedDataURL) (Some croppedBlob) imageElement)
          end
      end
  | None =>
      inr (ProcessingResult.mk compliance None None None imageElement)
  end
  end
  end.

End Processor.

(** ** [exportPhoto.ts]: the print sheet *)

(** The calls made on the jsPDF document, in order. *)
Inductive PdfOp : Type :=
| AddImage (imageData format : string) (x y w h : R)
| SetDrawColor (r g b : R)
| SetLineWidth (w : R)
| PdfRect (x y w h : R)
| SetFontSize (size : R)
| SetTextColor (r g b : R)
| PdfText (text : string) (x y : R)
| PdfSave (filename : string).

Module PdfDocument.
Record t : Type := mk {
  orientation : string;
  unit : string;
  formatWidth : R;
  formatHeight : R;
  ops : list PdfOp
}.
End PdfDocument.

(** [exportAsPrintSheet(canvas, filename)].  [imgData] is
    [canvas.toDataURL('image/png')], [today] the formatted date and
    [getTextWidth size text] is [pdf.getTextWidth(text)] at the font size
    set last. *)
Definition exportAsPrintSheet (imgData today : string)
    (getTextWidth : R -> string -> R) (filename : string) : PdfDocument.t :=
  let photoSize := 2 in
  let gap := 0.1 in
  let positions :=
    [ Point.mk 0 0;
      Point.mk (photoSize + gap) 0;
      Point.mk 0 (photoSize + gap);
      Point.mk (photoSize + gap) (photoSize + gap) ] in
  let addPhotos :=
    map (fun pos => AddImage imgData "PNG" (Point.x pos) (Point.y pos)
                             photoSize photoSize) positions in
  let cutLines :=
    map (fun pos => PdfRect (Point.x pos) (Point.y pos) photoSize photoSize)
        positions in
  let labelText := ("US Passport Photo - " ++ today)%string in
  let textWidth := getTextWidth 8 labelText in
  let centerX := (4 - textWidth) / 2 in
  let instructionText := "Cut along the gray lines"%string in
  let instructionWidth := getTextWidth 7 instructionText in
  let instructionX := (4 - instructionWidth) / 2 in
  PdfDocument.mk "portrait" "in" 4 6
    (addPhotos
     ++ [SetDrawColor 200 200 200; SetLineWidth 0.01]
     ++ cutLines
     ++ [SetFontSize 8; SetTextColor 100 100 100;
         PdfText labelText centerX 5.8;
         SetFontSize 7;
         PdfText instructionText instructionX 5.6;
         PdfSave filename]).

(** ** [GuidanceOverlay.tsx]: the geometry of the capture guide *)

Module GuideGeometry.
Record t : Type := mk {
  guideSize : R;
  guideX : R;
  guideY : R;
  ovalWidth : R;
  ovalX : R;
  eyeLineY : R;
  topLineY : R;
  chinLineY : R;
  ovalHeight : R;
  ovalY : R
}.
End GuideGeometry.


(** ** Notions used in the further statements *)



(** A detection with a bounding box and the six BlazeFace keypoints. *)
Definition sampleDetection : Detection.t :=
  Detection.mk
    (Some (BoundingBox.mk 350 300 300 300))
    (Some [ NormalizedKeypoint.mk 0.44 0.45; NormalizedKeypoint.mk 0.56 0.45;
            NormalizedKeypoint.mk 0.5 0.52; NormalizedKeypoint.mk 0.5 0.6;
            NormalizedKeypoint.mk 0.36 0.47; NormalizedKeypoint.mk 0.64 0.47 ])
    (Some [Category.mk 0.93]).

(** A close-up in a portrait image of 800 x 1200: bounding box 500 x 500
    centred at x = 400, both eyes at y = 450. *)
Definition portraitImage : Image.t := Image.mk 800 1200.

Definition portraitCloseUp : FaceDetectionResult.t :=
  faceOf 150 250 500 500 (Point.mk 480 450) (Point.mk 320 450).

(** [s.endsWith(suffix)] *)
Fixpoint endsWith (suffix s : string) : bool :=
  String.eqb s suffix
  || match s with
     | EmptyString => false
     | String _ rest => endsWith suffix rest
     end.

(** The last byte of a string. *)
Fixpoint lastByte (s : string) : option Ascii.ascii :=
  match s with
  | EmptyString => None
  | String c EmptyString => Some c
  | String _ rest => lastByte rest
  end.

(** ** The same code over IEEE 754 binary64

    [Binary64] embeds [checkCompliance] and the geometry of
    [cropToPassport] a second time, with a JavaScript [number] as a
    binary64 float and every operation rounded as the engine rounds it.
    Statements that depend on the last bits of a result are made about
    this embedding.  [Math.atan2], whose result the language leaves to
    the implementation, is a parameter. *)

Module Binary64.

Import PrimFloat FloatOps SpecFloat.

#[local] Set Warnings "-inexact-float".

Local Open Scope float_scope.

(** [a >= b] and [a > b]; [a < b] and [a <= b] are [ltb] and [leb].
    Every comparison with NaN is false. *)
Definition geb (a b : float) : bool := leb b a.
Definition gtb (a b : float) : bool := ltb b a.

Module Math.

Definition PI : float := 0x1.921fb54442d18p+1.

Definition abs (v : float) : float := PrimFloat.abs v.

(** [Math.max(a, b)]: NaN if either is, and [+0] is larger than [-0]. *)
Definition max (a b : float) : float :=
  if is_nan a || is_nan b then nan
  else if ltb a b then b
  else if ltb b a then a
  else if get_sign a then b else a.

(** [Math.min(a, b)]: NaN if either is, and [-0] is smaller than [+0]. *)
Definition min (a b : float) : float :=
  if is_nan a || is_nan b then nan
  else if ltb a b then a
  else if ltb b a then b
  else if get_sign a then a else b.

End Math.

(** The integer nearest to [(-1)^s * m * 2^e], a tie going up. *)
Definition roundHalfUp (s : bool) (m : positive) (e : Z) : Z :=
  let n := if s then Z.neg m else Z.pos m in
  if (0 <=? e)%Z then (n * 2 ^ e)%Z
  else ((2 * n + 2 ^ (- e)) / 2 ^ (- e + 1))%Z.

(** [`${Math.round(v)}`], for [|v| < 1e21]. *)
Definition roundToString (v : float) : string :=
  match Prim2SF v with
  | S754_nan => "NaN"
  | S754_infinity s => if s then "-Infinity" else "Infinity"
  | S754_zero _ => "0"
  | S754_finite s m e => string_of_Z (roundHalfUp s m e)
  end.

(** [v.toFixed(1)], for [|v| < 1e21]. *)
Definition toFixed1 (v : float) : string :=
  match Prim2SF v with
  | S754_nan => "NaN"
  | S754_infinity s => if s then "-Infinity" else "Infinity"
  | S754_zero _ => "0.0"
  | S754_finite s m e =>
      let n := Z.to_nat (roundHalfUp false (10 * m) e) in
      ((if s then "-" else "")
       ++ string_of_nat (n / 10) ++ "." ++ string_of_nat (n mod 10))%string
  end.

Module Point.
Record t : Type := mk { x : float; y : float }.
End Point.

Module BoundingBox.
Record t : Type := mk {
  originX : float; originY : float; width : float; height : float
}.
End BoundingBox.

Module FaceLandmarks.
Record t : Type := mk {
  leftEye : Point.t;
  rightEye : Point.t;
  nose : Point.t;
  mouth : Point.t
}.
End FaceLandmarks.

Module FaceDetectionResult.
Record t : Type := mk {
  boundingBox : BoundingBox.t;
  landmarks : FaceLandmarks.t;
  confidence : float
}.
End FaceDetectionResult.

Module ComplianceMetrics.
Record t : Type := mk {
  faceCount : nat;
  headHeightPercent : float;
  eyeHeightPercent : float;
  headTiltDegrees : float;
  horizontalCenterOffset : float
}.

Definition set_headHeightPercent (m : t) (v : float) : t :=
  mk (faceCount m) v (eyeHeightPercent m) (headTiltDegrees m)
     (horizontalCenterOffset m).
Definition set_eyeHeightPercent (m : t) (v : float) : t :=
  mk (faceCount m) (headHeightPercent m) v (headTiltDegrees m)
     (horizontalCenterOffset m).
Definition set_headTiltDegrees (m : t) (v : float) : t :=
  mk (faceCount m) (headHeightPercent m) (eyeHeightPercent m) v
     (horizontalCenterOffset m).
Definition set_horizontalCenterOffset (m : t) (v : float) : t :=
  mk (faceCount m) (headHeightPercent m) (eyeHeightPercent m)
     (headTiltDegrees m) v.
End ComplianceMetrics.

Module ComplianceResult.
Record t : Type := mk {
  passed : bool;
  checks : list ComplianceCheck.t;
  metrics : ComplianceMetrics.t;
  faceData : option FaceDetectionResult.t
}.
End ComplianceResult.

Section Compliance.

Import Point BoundingBox FaceLandmarks FaceDetectionResult.

(** [Math.atan2] *)
Variable atan2 : float -> float -> float.

Definition calculateAngle (p1 p2 : Point.t) : float :=
  let deltaY := y p2 - y p1 in
  let deltaX := x p2 - x p1 in
  let angleRad := atan2 deltaY deltaX in
  (angleRad * 180) / Math.PI.

Definition faceCountCheck (faces : list FaceDetectionResult.t)
  : ComplianceCheck.t :=
  ComplianceCheck.mk
    "face-count"
    "Single Face Detected"
    (List.length faces =? 1)%nat
    (if (List.length faces =? 0)%nat
     then "No face detected. Please ensure your face is clearly visible."
     else if (1 <? List.length faces)%nat
     then (string_of_nat (List.length faces)
           ++ " faces detected. Only one person should be in the photo.")%string
     else "One face detected ✓").

Definition checkSingleFace (imageWidth imageHeight : float)
    (face : FaceDetectionResult.t)
    (checks : list ComplianceCheck.t) (metrics : ComplianceMetrics.t)
  : ComplianceResult.t :=
  let boundingBox := boundingBox face in
  let landmarks := landmarks face in

  (* Calculate head height *)
  let headHeightPixels := height boundingBox * 1.25 in
  let headHeightPercent := (headHeightPixels / imageHeight) * 100 in
  let metrics :=
    ComplianceMetrics.set_headHeightPercent metrics headHeightPercent in

  (* Check 2: Head resolution quality *)
  let minHeadPixels := 150 in
  let headSizeCheck :=
    ComplianceCheck.mk
      "head-size"
      "Head Size"
      (geb headHeightPixels minHeadPixels)
      (if ltb headHeightPixels minHeadPixels
       then ("Face too small (" ++ roundToString headHeightPixels
             ++ "px). Move closer to the camera for better quality.")%string
       else ("Head size sufficient (" ++ roundToString headHeightPixels
             ++ "px) ✓")%string) in
  let checks := push checks headSizeCheck in

  (* Calculate eye position *)
  let eyeCenterY := (y (leftEye landmarks) + y (rightEye landmarks)) / 2 in
  let eyeCenterX := (x (leftEye landmarks) + x (rightEye landmarks)) / 2 in
  let eyeHeightFromBottom := imageHeight - eyeCenterY in
  let eyeHeightPercent := (eyeHeightFromBottom / imageHeight) * 100 in
  let metrics :=
    ComplianceMetrics.set_eyeHeightPercent metrics eyeHeightPercent in

  (* Check 3: Sufficient margin around face for clean crop *)
  let estimatedFullHead := height boundingBox in
  let targetHeadPercent := 0.595 in
  let cropSourceHeight := estimatedFullHead / targetHeadPercent in
  let headTop :=
    originY boundingBox - (estimatedFullHead - height boundingBox) in
  let targetEyeFromTop := cropSourceHeight * (1 - 0.625) in
  let neededAboveEyes := targetEyeFromTop in
  let availableAboveEyes := eyeCenterY in
  let neededBelowEyes := cropSourceHeight - targetEyeFromTop in
  let availableBelowEyes := imageHeight - eyeCenterY in
  let hasEnoughMargin :=
    geb availableAboveEyes (neededAboveEyes * 0.95)
    && geb availableBelowEyes (neededBelowEyes * 0.95) in
  let eyeHeightCheck :=
    ComplianceCheck.mk
      "eye-height"
      "Framing Margin"
      hasEnoughMargin
      (if negb hasEnoughMargin
       then if ltb availableAboveEyes (neededAboveEyes * 0.95)
            then "Not enough space above head. Move down or step back from the camera."
            else "Not enough space below chin. Move up or step back from the camera."
       else "Sufficient framing margin for crop ✓") in
  let checks := push checks eyeHeightCheck in

  (* Calculate head tilt from eye alignment *)
  let eyeAngle := calculateAngle (leftEye landmarks) (rightEye landmarks) in
  let headTiltDegrees :=
    if gtb (Math.abs eyeAngle) 90
    then 180 - Math.abs eyeAngle
    else Math.abs eyeAngle in
  let metrics :=
    ComplianceMetrics.set_headTiltDegrees metrics headTiltDegrees in

  (* Check 4: Head tilt *)
  let headTiltCheck :=
    ComplianceCheck.mk
      "head-tilt"
      "Head Alignment"
      (leb headTiltDegrees 5)
      (if gtb headTiltDegrees 5
       then ("Head is tilted " ++ toFixed1 headTiltDegrees
             ++ "°. Keep your head level.")%string
       else ("Head alignment correct (tilt: " ++ toFixed1 headTiltDegrees
             ++ "°) ✓")%string) in
  let checks := push checks headTiltCheck in

  (* Calculate horizontal centering *)
  let faceCenterX := originX boundingBox + width boundingBox / 2 in
  let imageCenterX := imageWidth / 2 in
  let horizontalOffset := Math.abs (faceCenterX - imageCenterX) in
  let horizontalOffsetPercent := (horizontalOffset / imageWidth) * 100 in
  let metrics :=
    ComplianceMetrics.set_horizontalCenterOffset
      metrics horizontalOffsetPercent in

  (* Check 5: Face centered horizontally *)
  let centeringCheck :=
    ComplianceCheck.mk
      "horizontal-centering"
      "Horizontal Centering"
      (leb horizontalOffsetPercent 10)
      (if gtb horizontalOffsetPercent 10
       then if ltb faceCenterX imageCenterX
            then "Face too far left. Center yourself in the frame."
            else "Face too far right. Center yourself in the frame."
       else "Face centered horizontally ✓") in
  let checks := push checks centeringCheck in

  let allPassed := forallb ComplianceCheck.passed checks in

  ComplianceResult.mk allPassed checks metrics (Some face).

Definition checkCompliance (imageWidth imageHeight : float)
    (faces : list FaceDetectionResult.t) : ComplianceResult.t :=
  let checks : list ComplianceCheck.t := [] in
  let metrics := ComplianceMetrics.mk (List.length faces) 0 0 0 0 in
  let checks := push checks (faceCountCheck faces) in
  match faces with
  | [face] => checkSingleFace imageWidth imageHeight face checks metrics
  | _ => ComplianceResult.mk false checks metrics None
  end.

End Compliance.

Module CropGeometry.
Record t : Type := mk {
  scale : float;
  sourceCropWidth : float;
  sourceCropHeight : float;
  idealCropX : float;
  idealCropY : float;
  sourceCropX : float;
  sourceCropY : float;
  actualCropWidth : float;
  actualCropHeight : float
}.
End CropGeometry.

Definition outputSize : float := 600.

Definition cropGeometry (sourceWidth sourceHeight : float)
    (faceData : FaceDetectionResult.t) : CropGeometry.t :=
  let boundingBox := FaceDetectionResult.boundingBox faceData in
  let landmarks := FaceDetectionResult.landmarks faceData in
  let eyeCenterY :=
    (Point.y (FaceLandmarks.leftEye landmarks)
     + Point.y (FaceLandmarks.rightEye landmarks)) / 2 in
  let eyeCenterX :=
    (Point.x (FaceLandmarks.leftEye landmarks)
     + Point.x (FaceLandmarks.rightEye landmarks)) / 2 in
  let targetEyeHeightFromBottom := outputSize * 0.625 in
  let targetEyeY := outputSize - targetEyeHeightFromBottom in
  let targetHeadHeightPercent := 0.595 in
  let targetHeadHeight := outputSize * targetHeadHeightPercent in
  let currentHeadHeight := BoundingBox.height boundingBox * 1.25 in
  let scale := targetHeadHeight / currentHeadHeight in
  let sourceCropWidth := outputSize / scale in
  let sourceCropHeight := outputSize / scale in
  let idealCropX := eyeCenterX - sourceCropWidth / 2 in
  let idealCropY :=
    eyeCenterY - (outputSize - targetEyeHeightFromBottom) / scale in
  let sourceCropX :=
    Math.max 0 (Math.min idealCropX (sourceWidth - sourceCropWidth)) in
  let sourceCropY :=
    Math.max 0 (Math.min idealCropY (sourceHeight - sourceCropHeight)) in
  let actualCropWidth :=
    Math.min sourceCropWidth (sourceWidth - sourceCropX) in
  let actualCropHeight :=
    Math.min sourceCropHeight (sourceHeight - sourceCropY) in
  CropGeometry.mk scale sourceCropWidth sourceCropHeight
                  idealCropX idealCropY sourceCropX sourceCropY
                  actualCropWidth actualCropHeight.


(** ** Inputs used in the statements *)

Definition swapEyes (face : FaceDetectionResult.t) : FaceDetectionResult.t :=
  let lm := FaceDetectionResult.landmarks face in
  FaceDetectionResult.mk
    (FaceDetectionResult.boundingBox face)
    (FaceLandmarks.mk (FaceLandmarks.rightEye lm) (FaceLandmarks.leftEye lm)
                      (FaceLandmarks.nose lm) (FaceLandmarks.mouth lm))
    (FaceDetectionResult.confidence face).

Definition faceOf (originX originY width height : float)
    (leftEye rightEye : Point.t) : FaceDetectionResult.t :=
  FaceDetectionResult.mk
    (BoundingBox.mk originX originY width height)
    (FaceLandmarks.mk leftEye rightEye
       (Point.mk (originX + width / 2) (originY + height / 2))
       (Point.mk (originX + width / 2) (originY + height * 0.75)))
    0.9.

(** The compliant photo of the specification: image 1000 x 1000,
    bounding box 300 x 300 centred at x = 500, both eyes at y = 450. *)
Definition compliantFace : FaceDetectionResult.t :=
  faceOf 350 300 300 300 (Point.mk 560 450) (Point.mk 440 450).


(** A face near the right edge of a 1920 x 1080 image: bounding box
    401 px high, eyes at (1840, 500) and (1760, 500). *)
Definition edgeFace : FaceDetectionResult.t :=
  faceOf 1600 300 400 401 (Point.mk 1840 500) (Point.mk 1760 500).



End Binary64.

(** * Properties *)

(** ** Comparisons *)

Lemma Rgeb_true_iff (a b : R) : Rgeb a b = true <-> a >= b.
Proof. unfold Rgeb; destruct (Rge_dec a b); split; intros; (easy || lra). Qed.

Lemma Rleb_true_iff (a b : R) : Rleb a b = true <-> a <= b.
Proof. unfold Rleb; destruct (Rle_dec a b); split; intros; (easy || lra). Qed.

Lemma Rgtb_true_iff (a b : R) : Rgtb a b = true <-> a > b.
Proof. unfold Rgtb; destruct (Rgt_dec a b); split; intros; (easy || lra). Qed.

Lemma Rltb_true_iff (a b : R) : Rltb a b = true <-> a < b.
Proof. unfold Rltb; destruct (Rlt_dec a b); split; intros; (easy || lra). Qed.

Lemma Rgeb_false_iff (a b : R) : Rgeb a b = false <-> a < b.
Proof. unfold Rgeb; destruct (Rge_dec a b); split; intros; (easy || lra). Qed.

Lemma Rleb_false_iff (a b : R) : Rleb a b = false <-> a > b.
Proof. unfold Rleb; destruct (Rle_dec a b); split; intros; (easy || lra). Qed.

Lemma Rgtb_false_iff (a b : R) : Rgtb a b = false <-> a <= b.
Proof. unfold Rgtb; destruct (Rgt_dec a b); split; intros; (easy || lra). Qed.

(** Decide the comparisons that occur in the goal, closing the cases
    that linear arithmetic refutes. *)
Ltac cmp_cases :=
  unfold Rgeb, Rleb, Rgtb, Rltb in *;
  repeat match goal with
         | |- context [Rge_dec ?a ?b] => destruct (Rge_dec a b)
         | |- context [Rle_dec ?a ?b] => destruct (Rle_dec a b)
         | |- context [Rgt_dec ?a ?b] => destruct (Rgt_dec a b)
         | |- context [Rlt_dec ?a ?b] => destruct (Rlt_dec a b)
         end;
  try reflexivity; try lra.

(** ** [Math.atan2] *)

Lemma atan_pos (v : R) : 0 < v -> 0 < atan v.
Proof. intros H. rewrite <- atan_0. now apply atan_increasing. Qed.

Lemma atan_neg (v : R) : v < 0 -> atan v < 0.
Proof. intros H. rewrite <- atan_0. now apply atan_increasing. Qed.

Lemma atan_nonneg (v : R) : 0 <= v -> 0 <= atan v.
Proof.
  intros [H | <-]; [left; now apply atan_pos | rewrite atan_0; lra].
Qed.

Lemma atan_nonpos (v : R) : v <= 0 -> atan v <= 0.
Proof.
  intros [H | ->]; [left; now apply atan_neg | rewrite atan_0; lra].
Qed.

Lemma div_sign_pp (a b : R) : 0 <= a -> 0 < b -> 0 <= a / b.
Proof.
  intros Ha Hb. unfold Rdiv. apply Rmult_le_pos; [easy|].
  left; now apply Rinv_0_lt_compat.
Qed.

Lemma div_sign_np (a b : R) : a <= 0 -> 0 < b -> a / b <= 0.
Proof.
  intros Ha Hb. replace (a / b) with (- ((- a) / b)) by (field; lra).
  pose proof (@div_sign_pp (- a) b). lra.
Qed.

Lemma div_sign_pn (a b : R) : 0 <= a -> b < 0 -> a / b <= 0.
Proof.
  intros Ha Hb. replace (a / b) with (- (a / (- b))) by (field; lra).
  pose proof (@div_sign_pp a (- b)). lra.
Qed.

Lemma div_sign_nn (a b : R) : a <= 0 -> b < 0 -> 0 <= a / b.
Proof.
  intros Ha Hb. replace (a / b) with ((- a) / (- b)) by (field; lra).
  apply div_sign_pp; lra.
Qed.

Lemma div_opp_opp (a b : R) : b <> 0 -> (- a) / (- b) = a / b.
Proof. intros; field; lra. Qed.

(** [Math.atan2] never leaves [[-PI, PI]]. *)
Lemma atan2_abs_le_PI (y x : R) : Rabs (Math.atan2 y x) <= PI.
Proof.
  pose proof PI_RGT_0 as HPI.
  unfold Math.atan2.
  destruct (Rlt_dec 0 x) as [Hx | Hx].
  - pose proof (atan_bound (y / x)). apply Rabs_le; lra.
  - destruct (Rlt_dec x 0) as [Hx' | Hx'].
    + pose proof (atan_bound (y / x)) as Hb.
      destruct (Rle_dec 0 y) as [Hy | Hy].
      * pose proof (atan_nonpos (div_sign_pn Hy Hx')). apply Rabs_le; lra.
      * assert (Hy' : y <= 0) by lra.
        pose proof (atan_nonneg (div_sign_nn Hy' Hx')). apply Rabs_le; lra.
    + destruct (Rlt_dec 0 y); [apply Rabs_le; lra|].
      destruct (Rlt_dec y 0); apply Rabs_le; lra.
Qed.

(** Exchanging the two points turns the angle by half a turn: the
    absolute angles add up to [PI], unless the points coincide. *)
Lemma atan2_opp_abs (y x : R) :
  x <> 0 \/ y <> 0 ->
  Rabs (Math.atan2 (- y) (- x)) = PI - Rabs (Math.atan2 y x).
Proof.
  intros Hne. pose proof PI_RGT_0 as HPI.
  unfold Math.atan2.
  destruct (Rlt_dec 0 x) as [Hx | Hx].
  - destruct (Rlt_dec 0 (- x)); [lra|].
    destruct (Rlt_dec (- x) 0); [|lra].
    rewrite div_opp_opp by lra.
    pose proof (atan_bound (y / x)) as Hb.
    destruct (Rle_dec 0 (- y)) as [Hy | Hy].
    + assert (Hy' : y <= 0) by lra.
      pose proof (atan_nonpos (div_sign_np Hy' Hx)).
      rewrite (Rabs_left1 (atan (y / x))) by lra.
      rewrite Rabs_right by lra. lra.
    + assert (Hy' : 0 <= y) by lra.
      pose proof (atan_nonneg (div_sign_pp Hy' Hx)).
      rewrite (Rabs_right (atan (y / x))) by lra.
      rewrite Rabs_left1 by lra. lra.
  - destruct (Rlt_dec x 0) as [Hx' | Hx'].
    + destruct (Rlt_dec 0 (- x)); [|lra].
      rewrite div_opp_opp by lra.
      pose proof (atan_bound (y / x)) as Hb.
      destruct (Rle_dec 0 y) as [Hy | Hy].
      * pose proof (atan_nonpos (div_sign_pn Hy Hx')).
        rewrite (Rabs_left1 (atan (y / x))) by lra.
        rewrite Rabs_right by lra. lra.
      * assert (Hy' : y <= 0) by lra.
        pose proof (atan_nonneg (div_sign_nn Hy' Hx')).
        rewrite (Rabs_right (atan (y / x))) by lra.
        rewrite Rabs_left1 by lra. lra.
    + assert (x = 0) by lra. subst x.
      destruct (Rlt_dec 0 (- 0)); [lra|].
      destruct (Rlt_dec (- 0) 0); [lra|].
      destruct (Rlt_dec 0 y) as [Hy | Hy].
      * destruct (Rlt_dec 0 (- y)); [lra|].
        destruct (Rlt_dec (- y) 0); [|lra].
        rewrite Rabs_left1 by lra. rewrite Rabs_right by lra. lra.
      * destruct (Rlt_dec y 0) as [Hy' | Hy'].
        -- destruct (Rlt_dec 0 (- y)); [|lra].
           rewrite Rabs_right by lra. rewrite Rabs_left1 by lra. lra.
        -- destruct Hne; lra.
Qed.

Lemma atan2_0_0 : Math.atan2 0 0 = 0.
Proof.
  unfold Math.atan2.
  destruct (Rlt_dec 0 0); [lra|]. reflexivity.
Qed.

(** ** [calculateAngle] and the tilt normalisation *)

Lemma Rabs_degrees (a : R) : Rabs ((a * 180) / PI) = (Rabs a * 180) / PI.
Proof.
  pose proof PI_RGT_0 as HPI.
  unfold Rdiv. rewrite !Rabs_mult.
  rewrite (Rabs_right 180) by lra.
  rewrite (Rabs_right (/ PI)); [reflexivity|].
  left. now apply Rinv_0_lt_compat.
Qed.

Lemma degrees_le (a b : R) : a <= b -> (a * 180) / PI <= (b * 180) / PI.
Proof.
  intros H. pose proof PI_RGT_0 as HPI.
  unfold Rdiv. apply Rmult_le_compat_r; [|lra].
  left. now apply Rinv_0_lt_compat.
Qed.

Lemma calculateAngle_abs_le_180 (p1 p2 : Point.t) :
  Rabs (calculateAngle p1 p2) <= 180.
Proof.
  pose proof PI_RGT_0 as HPI.
  unfold calculateAngle. cbv zeta. rewrite Rabs_degrees.
  replace 180 with ((PI * 180) / PI) at 2 by (field; lra).
  apply degrees_le, atan2_abs_le_PI.
Qed.

Lemma Point_neq (p1 p2 : Point.t) :
  p1 <> p2 -> Point.x p2 - Point.x p1 <> 0 \/ Point.y p2 - Point.y p1 <> 0.
Proof.
  destruct p1 as [x1 y1], p2 as [x2 y2]; simpl. intros Hne.
  destruct (Req_dec x1 x2) as [-> | Hx]; [|left; lra].
  destruct (Req_dec y1 y2) as [-> | Hy]; [|right; lra].
  now contradiction Hne.
Qed.

(** Seen from the other eye the absolute angle is the supplement. *)
Lemma calculateAngle_swap_abs (p1 p2 : Point.t) :
  p1 <> p2 ->
  Rabs (calculateAngle p2 p1) = 180 - Rabs (calculateAngle p1 p2).
Proof.
  intros Hne. pose proof PI_RGT_0 as HPI.
  unfold calculateAngle. cbv zeta. rewrite !Rabs_degrees.
  replace (Point.y p1 - Point.y p2) with (- (Point.y p2 - Point.y p1)) by lra.
  replace (Point.x p1 - Point.x p2) with (- (Point.x p2 - Point.x p1)) by lra.
  rewrite atan2_opp_abs by now apply Point_neq.
  field. lra.
Qed.

Lemma calculateAngle_same (p : Point.t) : calculateAngle p p = 0.
Proof.
  pose proof PI_RGT_0 as HPI.
  unfold calculateAngle. cbv zeta.
  replace (Point.y p - Point.y p) with 0 by lra.
  replace (Point.x p - Point.x p) with 0 by lra.
  rewrite atan2_0_0. field. lra.
Qed.

(** The normalisation only reads the absolute angle, and gives the same
    value for an angle and for its supplement. *)
Lemma normalizeTilt_supplement (a b : R) :
  Rabs b = 180 - Rabs a -> normalizeTilt b = normalizeTilt a.
Proof.
  intros H. unfold normalizeTilt, Math.abs. rewrite H.
  pose proof (Rabs_pos a). cmp_cases.
Qed.

Lemma normalizeTilt_range (a : R) :
  Rabs a <= 180 -> 0 <= normalizeTilt a <= 90.
Proof.
  intros H. unfold normalizeTilt, Math.abs.
  pose proof (Rabs_pos a). cmp_cases.
Qed.

(** What [checkCompliance] stores in [metrics.headTiltDegrees]. *)
Lemma checkCompliance_headTiltDegrees (imageWidth imageHeight : R)
    (face : FaceDetectionResult.t) :
  ComplianceMetrics.headTiltDegrees
    (ComplianceResult.metrics (checkCompliance imageWidth imageHeight [face]))
  = normalizeTilt
      (calculateAngle
         (FaceLandmarks.leftEye (FaceDetectionResult.landmarks face))
         (FaceLandmarks.rightEye (FaceDetectionResult.landmarks face))).
Proof. reflexivity. Qed.

(** C10.  With exactly one face, whatever the eye landmarks are,
    [metrics.headTiltDegrees] lies in the closed interval [[0, 90]]. *)
Theorem headTilt_in_0_90 (imageWidth imageHeight : R)
    (face : FaceDetectionResult.t) :
  0 <= ComplianceMetrics.headTiltDegrees
         (ComplianceResult.metrics
            (checkCompliance imageWidth imageHeight [face]))
    <= 90.
Proof.
  rewrite checkCompliance_headTiltDegrees.
  apply normalizeTilt_range, calculateAngle_abs_le_180.
Qed.

(** ** The result of [checkCompliance] on exactly one face *)

Section SingleFace.

Variables imageWidth imageHeight : R.
Variable face : FaceDetectionResult.t.

Let result := checkCompliance imageWidth imageHeight [face].
Let box := FaceDetectionResult.boundingBox face.

Lemma single_check_ids :
  map ComplianceCheck.id (ComplianceResult.checks result)
  = ["face-count"; "head-size"; "eye-height"; "head-tilt";
     "horizontal-centering"]%string.
Proof. reflexivity. Qed.

Lemma single_face_count_passed : checkPassed "face-count" result = Some true.
Proof. reflexivity. Qed.

Lemma single_head_size_passed :
  checkPassed "head-size" result
  = Some (Rgeb (BoundingBox.height box * 1.25) 150).
Proof. reflexivity. Qed.

Lemma single_eye_height_passed :
  checkPassed "eye-height" result
  = Some (Rgeb (eyeCenterY face)
               (BoundingBox.height box / 0.595 * (1 - 0.625) * 0.95)
          && Rgeb (imageHeight - eyeCenterY face)
                  ((BoundingBox.height box / 0.595
                    - BoundingBox.height box / 0.595 * (1 - 0.625)) * 0.95)).
Proof. reflexivity. Qed.

Lemma single_head_tilt_passed :
  checkPassed "head-tilt" result
  = Some (Rleb (ComplianceMetrics.headTiltDegrees
                  (ComplianceResult.metrics result)) 5).
Proof. reflexivity. Qed.

Lemma single_centering_passed :
  checkPassed "horizontal-centering" result
  = Some (Rleb (ComplianceMetrics.horizontalCenterOffset
                  (ComplianceResult.metrics result)) 10).
Proof. reflexivity. Qed.

Lemma single_headHeightPercent :
  ComplianceMetrics.headHeightPercent (ComplianceResult.metrics result)
  = BoundingBox.height box * 1.25 / imageHeight * 100.
Proof. reflexivity. Qed.

Lemma single_eyeHeightPercent :
  ComplianceMetrics.eyeHeightPercent (ComplianceResult.metrics result)
  = (imageHeight - eyeCenterY face) / imageHeight * 100.
Proof. reflexivity. Qed.

Lemma single_horizontalCenterOffset :
  ComplianceMetrics.horizontalCenterOffset (ComplianceResult.metrics result)
  = Rabs (BoundingBox.originX box + BoundingBox.width box / 2
          - imageWidth / 2) / imageWidth * 100.
Proof. reflexivity. Qed.

(** [checks.every(check => check.passed)] over the five checks. *)
Lemma single_passed :
  ComplianceResult.passed result
  = forallb (fun id => match checkPassed id result with
                       | Some b => b
                       | None => false
                       end)
      ["face-count"; "head-size"; "eye-height"; "head-tilt";
       "horizontal-centering"]%string.
Proof. reflexivity. Qed.

Lemma single_passed_flags :
  map ComplianceCheck.passed (ComplianceResult.checks result)
  = [ true;
      Rgeb (BoundingBox.height box * 1.25) 150;
      Rgeb (eyeCenterY face)
           (BoundingBox.height box / 0.595 * (1 - 0.625) * 0.95)
      && Rgeb (imageHeight - eyeCenterY face)
              ((BoundingBox.height box / 0.595
                - BoundingBox.height box / 0.595 * (1 - 0.625)) * 0.95);
      Rleb (ComplianceMetrics.headTiltDegrees
              (ComplianceResult.metrics result)) 5;
      Rleb (ComplianceMetrics.horizontalCenterOffset
              (ComplianceResult.metrics result)) 10 ].
Proof. reflexivity. Qed.

Lemma single_passed_every :
  ComplianceResult.passed result
  = forallb (fun b : bool => b)
      (map ComplianceCheck.passed (ComplianceResult.checks result)).
Proof. reflexivity. Qed.

End SingleFace.

(** ** Face-count gating *)

(** C2.  When the number of faces is not 1 the result has [passed = false],
    its only check is the (failed) face-count check, [metrics.faceCount] is
    the number of faces and the other metrics are zero, and there is no
    [faceData]; with exactly one face [faceData] is that face, whatever
    the other checks say. *)
Theorem face_count_gating (imageWidth imageHeight : R) :
  (forall faces : list FaceDetectionResult.t,
      List.length faces <> 1%nat ->
      let result := checkCompliance imageWidth imageHeight faces in
      ComplianceResult.passed result = false
      /\ ComplianceResult.checks result = [faceCountCheck faces]
      /\ ComplianceCheck.id (faceCountCheck faces) = "face-count"%string
      /\ ComplianceCheck.passed (faceCountCheck faces) = false
      /\ ComplianceResult.metrics result
         = ComplianceMetrics.mk (List.length faces) 0 0 0 0
      /\ ComplianceResult.faceData result = None)
  /\ (forall face : FaceDetectionResult.t,
         ComplianceResult.faceData
           (checkCompliance imageWidth imageHeight [face]) = Some face).
Proof.
  split.
  - intros faces Hlen.
    destruct faces as [| f [| g rest]].
    + repeat split.
    + now contradiction Hlen.
    + repeat split.
  - reflexivity.
Qed.

Lemma face_count_gating_witness :
  let result := checkCompliance 1000 1000 [compliantFace; highFace] in
  ComplianceResult.passed result = false
  /\ ComplianceResult.checks result = [faceCountCheck [compliantFace; highFace]]
  /\ ComplianceCheck.id (faceCountCheck [compliantFace; highFace])
     = "face-count"%string
  /\ ComplianceCheck.passed (faceCountCheck [compliantFace; highFace]) = false
  /\ ComplianceResult.metrics result = ComplianceMetrics.mk 2 0 0 0 0
  /\ ComplianceResult.faceData result = None.
Proof.
  apply (proj1 (face_count_gating 1000 1000) [compliantFace; highFace]).
  simpl. lia.
Defined.

(** ** Head size *)

(** C6.  With exactly one face the head-size check passes exactly when
    [boundingBox.height * 1.25 >= 150]; a bounding box 120 px high passes
    and one 119.99 px high fails. *)
Theorem head_size_threshold :
  (forall (imageWidth imageHeight : R) (face : FaceDetectionResult.t),
      exists b : bool,
        checkPassed "head-size" (checkCompliance imageWidth imageHeight [face])
        = Some b
        /\ (b = true <->
            BoundingBox.height (FaceDetectionResult.boundingBox face) * 1.25
            >= 150))
  /\ (forall (imageWidth imageHeight originX originY width confidence : R)
             (landmarks : FaceLandmarks.t),
         checkPassed "head-size"
           (checkCompliance imageWidth imageHeight
              [FaceDetectionResult.mk
                 (BoundingBox.mk originX originY width 120)
                 landmarks confidence])
         = Some true)
  /\ (forall (imageWidth imageHeight originX originY width confidence : R)
             (landmarks : FaceLandmarks.t),
         checkPassed "head-size"
           (checkCompliance imageWidth imageHeight
              [FaceDetectionResult.mk
                 (BoundingBox.mk originX originY width 119.99)
                 landmarks confidence])
         = Some false).
Proof.
  split; [|split].
  - intros imageWidth imageHeight face.
    rewrite single_head_size_passed. eexists. split; [reflexivity|].
    apply Rgeb_true_iff.
  - intros. rewrite single_head_size_passed. f_equal.
    apply Rgeb_true_iff. simpl. lra.
  - intros. rewrite single_head_size_passed. f_equal.
    apply Rgeb_false_iff. simpl. lra.
Qed.

(** ** Framing margin *)

(** The condition [checkCompliance] evaluates for the check with id
    ["eye-height"]: the needed crop height is [boundingBox.height / 0.595];
    the factor 1.25 of the head estimate is not part of it. *)
Lemma framing_margin_condition (imageWidth imageHeight : R)
    (face : FaceDetectionResult.t) :
  exists b : bool,
    checkPassed "eye-height" (checkCompliance imageWidth imageHeight [face])
    = Some b
    /\ (b = true <->
        eyeCenterY face
        >= 0.95 * (BoundingBox.height (FaceDetectionResult.boundingBox face)
                   / 0.595) * 0.375
        /\ imageHeight - eyeCenterY face
           >= 0.95 * (BoundingBox.height (FaceDetectionResult.boundingBox face)
                      / 0.595) * 0.625).
Proof.
  rewrite single_eye_height_passed. eexists. split; [reflexivity|].
  rewrite andb_true_iff, !Rgeb_true_iff. split; intros [H1 H2]; split; lra.
Qed.

(** C1 (evaluation at [highFace], image 1000 x 1000).  The framing-margin
    check passes, although [eyeCenterY = 250] is less than
    [0.95 * (400 * 1.25 / 0.595) * 0.375], the space the stated criterion
    asks for above the eye line; the window [cropToPassport] wants for
    this face indeed starts above the top edge of the image. *)
Theorem framing_margin_omits_head_estimate :
  checkPassed "eye-height" (checkCompliance 1000 1000 [highFace]) = Some true
  /\ eyeCenterY highFace = 250
  /\ BoundingBox.height (FaceDetectionResult.boundingBox highFace) = 400
  /\ ~ (eyeCenterY highFace
        >= 0.95 * (BoundingBox.height (FaceDetectionResult.boundingBox highFace)
                   * 1.25 / 0.595) * 0.375
        /\ 1000 - eyeCenterY highFace
           >= 0.95 * (BoundingBox.height
                        (FaceDetectionResult.boundingBox highFace)
                      * 1.25 / 0.595) * 0.625)
  /\ CropGeometry.idealCropY (cropGeometry 1000 1000 highFace) < 0.
Proof.
  assert (He : eyeCenterY highFace = 250) by (unfold eyeCenterY; simpl; lra).
  split; [|split; [exact He|split; [reflexivity|split]]].
  - rewrite single_eye_height_passed. f_equal.
    rewrite andb_true_iff, !Rgeb_true_iff, He. simpl. split; lra.
  - rewrite He. simpl. intros [H _]. lra.
  - unfold cropGeometry, outputSize. simpl. lra.
Qed.

(** ** The compliant photo *)

Lemma normalizeTilt_0 : normalizeTilt 0 = 0.
Proof.
  unfold normalizeTilt, Math.abs. rewrite Rabs_R0. cmp_cases.
Qed.

Lemma normalizeTilt_180 : normalizeTilt 180 = 0.
Proof.
  unfold normalizeTilt, Math.abs. rewrite Rabs_right by lra. cmp_cases.
Qed.

(** Eyes at the same height give tilt [0], whichever eye comes first. *)
Lemma normalizeTilt_level (p1 p2 : Point.t) :
  Point.y p1 = Point.y p2 -> normalizeTilt (calculateAngle p1 p2) = 0.
Proof.
  intros Hy. pose proof PI_RGT_0 as HPI.
  unfold calculateAngle. cbv zeta. rewrite Hy.
  replace (Point.y p2 - Point.y p2) with 0 by lra.
  unfold Math.atan2.
  assert (Hz : forall d : R, atan (0 / d) = 0)
    by (intros d; unfold Rdiv; rewrite Rmult_0_l; apply atan_0).
  destruct (Rlt_dec 0 (Point.x p2 - Point.x p1)).
  - rewrite Hz. replace (0 * 180 / PI) with 0 by (field; lra).
    apply normalizeTilt_0.
  - destruct (Rlt_dec (Point.x p2 - Point.x p1) 0).
    + destruct (Rle_dec 0 0); [|lra]. rewrite Hz.
      replace ((0 + PI) * 180 / PI) with 180 by (field; lra).
      apply normalizeTilt_180.
    + destruct (Rlt_dec 0 0); [lra|].
      replace (0 * 180 / PI) with 0 by (field; lra).
      apply normalizeTilt_0.
Qed.

(** ** The source window of [cropToPassport] *)

Lemma clamp_origin_nonneg (ideal limit : R) :
  0 <= Math.max 0 (Math.min ideal limit).
Proof. apply Rmax_l. Qed.

Lemma clamp_size_fits (side source origin : R) :
  origin + Math.min side (source - origin) <= source.
Proof.
  pose proof (Rmin_r side (source - origin)). unfold Math.min. lra.
Qed.

(** When the window fits, the origin stays in range and the size is kept. *)
Lemma clamp_fits (ideal side source : R) :
  side <= source ->
  let origin := Math.max 0 (Math.min ideal (source - side)) in
  0 <= origin <= source - side /\ Math.min side (source - origin) = side.
Proof.
  intros Hfit origin. unfold origin, Math.max, Math.min.
  assert (Hr : 0 <= Rmax 0 (Rmin ideal (source - side)) <= source - side).
  { split; [apply Rmax_l|].
    apply Rmax_lub; [lra | apply Rmin_r]. }
  split; [exact Hr|]. apply Rmin_left. lra.
Qed.

(** When the window is larger than the source, the origin is 0 and the
    size is cut down to the source. *)
Lemma clamp_too_large (ideal side source : R) :
  source < side ->
  let origin := Math.max 0 (Math.min ideal (source - side)) in
  origin = 0 /\ Math.min side (source - origin) = source.
Proof.
  intros Hbig origin. unfold origin, Math.max, Math.min.
  assert (H0 : Rmax 0 (Rmin ideal (source - side)) = 0).
  { apply Rmax_left. pose proof (Rmin_r ideal (source - side)). lra. }
  rewrite H0. split; [reflexivity|].
  rewrite Rmin_right by lra. lra.
Qed.

Lemma cropGeometry_window_within (sourceWidth sourceHeight : R)
    (faceData : FaceDetectionResult.t) :
  let g := cropGeometry sourceWidth sourceHeight faceData in
  CropGeometry.sourceCropX g >= 0
  /\ CropGeometry.sourceCropY g >= 0
  /\ CropGeometry.sourceCropX g + CropGeometry.actualCropWidth g
     <= sourceWidth
  /\ CropGeometry.sourceCropY g + CropGeometry.actualCropHeight g
     <= sourceHeight.
Proof.
  unfold cropGeometry. cbv zeta. simpl.
  repeat split;
    try (apply Rle_ge, clamp_origin_nonneg); apply clamp_size_fits.
Qed.

(** C3.  For a source image with positive dimensions and any detection,
    the rectangle [cropToPassport] passes to [drawImage] as the source
    lies within [[0, sourceWidth] x [0, sourceHeight]]. *)
Theorem crop_source_within_image (image : Image.t)
    (faceData : FaceDetectionResult.t) :
  0 < Image.width image ->
  0 < Image.height image ->
  exists sourceCropX sourceCropY actualCropWidth actualCropHeight : R,
    cropToPassport true image faceData
    = inr (Canvas.mk outputSize outputSize
             [ FillRect "#FFFFFF" 0 0 outputSize outputSize;
               DrawImage image sourceCropX sourceCropY
                         actualCropWidth actualCropHeight
                         0 0 outputSize outputSize ])
    /\ sourceCropX >= 0
    /\ sourceCropY >= 0
    /\ sourceCropX + actualCropWidth <= Image.width image
    /\ sourceCropY + actualCropHeight <= Image.height image.
Proof.
  intros _ _. do 4 eexists. split; [reflexivity|].
  apply cropGeometry_window_within.
Qed.

Lemma crop_source_within_image_witness :
  exists sourceCropX sourceCropY actualCropWidth actualCropHeight : R,
    cropToPassport true (Image.mk 1000 1000) closeUpFace
    = inr (Canvas.mk outputSize outputSize
             [ FillRect "#FFFFFF" 0 0 outputSize outputSize;
               DrawImage (Image.mk 1000 1000) sourceCropX sourceCropY
                         actualCropWidth actualCropHeight
                         0 0 outputSize outputSize ])
    /\ sourceCropX >= 0
    /\ sourceCropY >= 0
    /\ sourceCropX + actualCropWidth <= 1000
    /\ sourceCropY + actualCropHeight <= 1000.
Proof.
  apply (crop_source_within_image (Image.mk 1000 1000) closeUpFace);
    simpl; lra.
Defined.

(** The close-up passes [checkCompliance], so [processPassportPhoto]
    hands it to [cropToPassport]. *)
Lemma closeUpFace_passes :
  ComplianceResult.passed (checkCompliance 1000 1000 [closeUpFace]) = true.
Proof.
  rewrite single_passed_every, single_passed_flags.
  rewrite checkCompliance_headTiltDegrees, single_horizontalCenterOffset.
  rewrite normalizeTilt_level by reflexivity.
  assert (He : eyeCenterY closeUpFace = 450)
    by (unfold eyeCenterY; simpl; lra).
  rewrite He. simpl BoundingBox.height. simpl BoundingBox.originX.
  simpl BoundingBox.width.
  replace (250 + 500 / 2 - 1000 / 2) with 0 by lra. rewrite Rabs_R0.
  simpl forallb. rewrite !andb_true_iff, !Rgeb_true_iff, !Rleb_true_iff.
  repeat split; lra.
Qed.




(** ** Summary helpers *)

Lemma find_filter (A : Type) (p q : A -> bool) (l : list A) :
  find p (filter q l) = find (fun a => q a && p a) l.
Proof.
  induction l as [| a l IH]; [reflexivity|]. simpl.
  destruct (q a); simpl; [|exact IH].
  destruct (p a); [reflexivity | exact IH].
Qed.

Lemma filter_first (A : Type) (q : A -> bool) (l : list A) :
  match filter q l with
  | [] => None
  | a :: _ => Some a
  end = find q l.
Proof.
  induction l as [| a l IH]; [reflexivity|]. simpl.
  destruct (q a); [reflexivity | exact IH].
Qed.

(** [getComplianceErrorMessage] returns the message of the critical
    failure, and [null] when no check failed. *)
Lemma getComplianceErrorMessage_critical (result : ComplianceResult.t) :
  ComplianceResult.passed result = false ->
  getComplianceErrorMessage result
  = option_map ComplianceCheck.message (criticalFailure result).
Proof.
  intros Hfailed. unfold getComplianceErrorMessage, criticalFailure.
  rewrite Hfailed. cbv zeta.
  rewrite find_filter.
  rewrite <- (filter_first (fun c => negb (ComplianceCheck.passed c))
                           (ComplianceResult.checks result)).
  destruct (filter _ (ComplianceResult.checks result)) as [| first rest] eqn:Hf.
  - destruct (find _ (ComplianceResult.checks result)) as [c |] eqn:Hfind;
      [|reflexivity].
    apply find_some in Hfind as [Hin Hc].
    apply andb_true_iff in Hc as [Hc _].
    assert (Hin' : In c (filter (fun c => negb (ComplianceCheck.passed c))
                                (ComplianceResult.checks result)))
      by (apply filter_In; now split).
    rewrite Hf in Hin'. destruct Hin'.
  - destruct (find _ (ComplianceResult.checks result)); reflexivity.
Qed.

(** [getComplianceSummary] on a failed result: the number of failed
    checks, not a message of any check. *)
Lemma getComplianceSummary_failed (result : ComplianceResult.t) :
  ComplianceResult.passed result = false ->
  let failedCount :=
    List.length (filter (fun c => negb (ComplianceCheck.passed c))
                        (ComplianceResult.checks result)) in
  getComplianceSummary result
  = (string_of_nat failedCount ++ " requirement"
     ++ (if (1 <? failedCount)%nat then "s" else "") ++ " not met")%string.
Proof. intros Hfailed. unfold getComplianceSummary. now rewrite Hfailed. Qed.

(** C5 as stated fails: with no face detected the face-count check is
    the critical failure, and [getComplianceSummary] returns
    "1 requirement not met" rather than that check's message. *)
Lemma getComplianceSummary_counterexample :
  ~ selectsCriticalMessage (fun result => Some (getComplianceSummary result)).
Proof.
  intros Hsel.
  specialize (Hsel (checkCompliance 1000 1000 []) (faceCountCheck [])
                   eq_refl eq_refl).
  discriminate Hsel.
Qed.

(** C5, amended.  On every result with [passed = false],
    [getComplianceErrorMessage] returns the message of the face-count
    check when that check failed and otherwise the message of the first
    failing check in list order ([null] when no check failed), while
    [getComplianceSummary] returns the count of failed checks,
    "<n> requirement(s) not met". *)
Theorem failure_message_selection (result : ComplianceResult.t) :
  ComplianceResult.passed result = false ->
  (forall c : ComplianceCheck.t,
      criticalFailure result = Some c ->
      getComplianceErrorMessage result = Some (ComplianceCheck.message c))
  /\ (criticalFailure result = None ->
      getComplianceErrorMessage result = None)
  /\ getComplianceSummary result
     = (string_of_nat
          (List.length (filter (fun c => negb (ComplianceCheck.passed c))
                               (ComplianceResult.checks result)))
        ++ " requirement"
        ++ (if (1 <? List.length
                       (filter (fun c => negb (ComplianceCheck.passed c))
                               (ComplianceResult.checks result)))%nat
            then "s" else "")
        ++ " not met")%string.
Proof.
  intros Hfailed.
  pose proof (getComplianceErrorMessage_critical result Hfailed) as Hmsg.
  split; [|split].
  - intros c Hc. now rewrite Hmsg, Hc.
  - intros Hc. now rewrite Hmsg, Hc.
  - now apply getComplianceSummary_failed.
Qed.

Lemma failure_message_selection_witness :
  getComplianceErrorMessage (checkCompliance 1000 1000 [])
  = Some "No face detected. Please ensure your face is clearly visible."%string
  /\ getComplianceSummary (checkCompliance 1000 1000 [])
     = "1 requirement not met"%string.
Proof.
  destruct (@failure_message_selection (checkCompliance 1000 1000 []) eq_refl)
    as (Hmsg & _ & Hsum).
  split.
  - exact (Hmsg (faceCountCheck []) eq_refl).
  - exact Hsum.
Defined.

(** * Further properties of the code *)

(** ** [checkCompliance]: the overall verdict *)

Lemma checkCompliance_passed_every (imageWidth imageHeight : R)
    (faces : list FaceDetectionResult.t) :
  ComplianceResult.passed (checkCompliance imageWidth imageHeight faces)
  = forallb ComplianceCheck.passed
      (ComplianceResult.checks (checkCompliance imageWidth imageHeight faces)).
Proof. destruct faces as [| f [| g rest]]; reflexivity. Qed.

Lemma checkCompliance_passed_single (imageWidth imageHeight : R)
    (faces : list FaceDetectionResult.t) :
  ComplianceResult.passed (checkCompliance imageWidth imageHeight faces)
  = true ->
  exists face : FaceDetectionResult.t, faces = [face].
Proof.
  destruct faces as [| f [| g rest]]; [discriminate | | discriminate].
  intros _. now exists f.
Qed.

(** X1.  In every result [passed] is the conjunction of the checks that
    were run, and [passed = true] is only returned for exactly one face,
    with all five checks run and that face as [faceData]. *)
Theorem passed_is_conjunction_of_checks (imageWidth imageHeight : R)
    (faces : list FaceDetectionResult.t) :
  let result := checkCompliance imageWidth imageHeight faces in
  ComplianceResult.passed result
  = forallb ComplianceCheck.passed (ComplianceResult.checks result)
  /\ (ComplianceResult.passed result = true ->
      exists face : FaceDetectionResult.t,
        faces = [face]
        /\ ComplianceResult.faceData result = Some face
        /\ List.length (ComplianceResult.checks result) = 5%nat
        /\ forall c : ComplianceCheck.t,
            In c (ComplianceResult.checks result) ->
            ComplianceCheck.passed c = true).
Proof.
  intros result. split; [apply checkCompliance_passed_every|].
  intros Hpassed.
  destruct (checkCompliance_passed_single _ _ _ Hpassed) as [face ->].
  exists face. repeat split.
  intros c Hin. unfold result in Hpassed.
  rewrite checkCompliance_passed_every in Hpassed.
  rewrite forallb_forall in Hpassed. now apply Hpassed.
Qed.

Lemma passed_is_conjunction_of_checks_witness :
  exists face : FaceDetectionResult.t,
    [closeUpFace] = [face]
    /\ ComplianceResult.faceData (checkCompliance 1000 1000 [closeUpFace])
       = Some face
    /\ List.length
         (ComplianceResult.checks (checkCompliance 1000 1000 [closeUpFace]))
       = 5%nat
    /\ forall c : ComplianceCheck.t,
        In c (ComplianceResult.checks
                (checkCompliance 1000 1000 [closeUpFace])) ->
        ComplianceCheck.passed c = true.
Proof.
  apply (proj2 (passed_is_conjunction_of_checks 1000 1000 [closeUpFace])).
  apply closeUpFace_passes.
Defined.

(** X2.  The verdict, the checks and the metrics only read the eye
    landmarks and the bounding box's [originX], [width] and [height]:
    two faces that agree on these get the same checks, metrics and
    verdict, whatever their [originY], nose, mouth and confidence. *)
Theorem checks_read_eyes_and_box_only (imageWidth imageHeight : R)
    (face1 face2 : FaceDetectionResult.t) :
  let box1 := FaceDetectionResult.boundingBox face1 in
  let box2 := FaceDetectionResult.boundingBox face2 in
  let lm1 := FaceDetectionResult.landmarks face1 in
  let lm2 := FaceDetectionResult.landmarks face2 in
  BoundingBox.originX box1 = BoundingBox.originX box2 ->
  BoundingBox.width box1 = BoundingBox.width box2 ->
  BoundingBox.height box1 = BoundingBox.height box2 ->
  FaceLandmarks.leftEye lm1 = FaceLandmarks.leftEye lm2 ->
  FaceLandmarks.rightEye lm1 = FaceLandmarks.rightEye lm2 ->
  let r1 := checkCompliance imageWidth imageHeight [face1] in
  let r2 := checkCompliance imageWidth imageHeight [face2] in
  ComplianceResult.passed r1 = ComplianceResult.passed r2
  /\ ComplianceResult.checks r1 = ComplianceResult.checks r2
  /\ ComplianceResult.metrics r1 = ComplianceResult.metrics r2.
Proof.
  destruct face1 as [[ox1 oy1 w1 h1] [le1 re1 n1 m1] c1].
  destruct face2 as [[ox2 oy2 w2 h2] [le2 re2 n2 m2] c2].
  simpl. intros -> -> -> -> ->. repeat split.
Qed.

Lemma checks_read_eyes_and_box_only_witness :
  let r1 := checkCompliance 1000 1000 [compliantFace] in
  let r2 :=
    checkCompliance 1000 1000
      [FaceDetectionResult.mk
         (BoundingBox.mk 350 123 300 300)
         (FaceLandmarks.mk (Point.mk 560 450) (Point.mk 440 450)
                           (Point.mk 1 2) (Point.mk 3 4))
         0.5] in
  ComplianceResult.passed r1 = ComplianceResult.passed r2
  /\ ComplianceResult.checks r1 = ComplianceResult.checks r2
  /\ ComplianceResult.metrics r1 = ComplianceResult.metrics r2.
Proof.
  apply (@checks_read_eyes_and_box_only 1000 1000 compliantFace
           (FaceDetectionResult.mk
              (BoundingBox.mk 350 123 300 300)
              (FaceLandmarks.mk (Point.mk 560 450) (Point.mk 440 450)
                                (Point.mk 1 2) (Point.mk 3 4))
              0.5));
    reflexivity.
Defined.

(** ** [checkCompliance]: horizontal centering *)

Lemma percent_le_10 (a w : R) : 0 < w -> (a / w * 100 <= 10 <-> a <= w / 10).
Proof.
  intros Hw.
  assert (Ha : a = a / w * w) by (field; lra).
  set (q := a / w) in *. split; intros H.
  - rewrite Ha. nra.
  - rewrite Ha in H. nra.
Qed.

(** X3.  For an image of positive width the centering check passes
    exactly when the centre of the bounding box lies in the middle fifth
    of the image, between 40 and 60 percent of its width; left of that
    band the message says "too far left", right of it "too far right". *)
Theorem centering_band (imageWidth imageHeight : R)
    (face : FaceDetectionResult.t) :
  0 < imageWidth ->
  let box := FaceDetectionResult.boundingBox face in
  let faceCenterX := BoundingBox.originX box + BoundingBox.width box / 2 in
  exists c : ComplianceCheck.t,
    findCheck "horizontal-centering"
      (checkCompliance imageWidth imageHeight [face]) = Some c
    /\ (ComplianceCheck.passed c = true <->
        0.4 * imageWidth <= faceCenterX <= 0.6 * imageWidth)
    /\ (faceCenterX < 0.4 * imageWidth ->
        ComplianceCheck.message c
        = "Face too far left. Center yourself in the frame."%string)
    /\ (0.6 * imageWidth < faceCenterX ->
        ComplianceCheck.message c
        = "Face too far right. Center yourself in the frame."%string).
Proof.
  intros Hw box faceCenterX. eexists. split; [reflexivity|].
  cbn [ComplianceCheck.passed ComplianceCheck.message].
  fold box. fold faceCenterX.
  set (off := Math.abs (faceCenterX - imageWidth / 2) / imageWidth * 100).
  assert (Hoff : off <= 10 <->
                 0.4 * imageWidth <= faceCenterX <= 0.6 * imageWidth).
  { unfold off. rewrite percent_le_10 by exact Hw. unfold Math.abs.
    split.
    - unfold Rabs. destruct (Rcase_abs _); lra.
    - intros H. apply Rabs_le. lra. }
  split; [|split].
  - rewrite Rleb_true_iff. exact Hoff.
  - intros Hleft.
    assert (Hgt : off > 10) by (apply Rnot_le_gt; intros H; apply Hoff in H; lra).
    apply Rgtb_true_iff in Hgt. rewrite Hgt.
    assert (Hlt : Rltb faceCenterX (imageWidth / 2) = true)
      by (apply Rltb_true_iff; lra).
    now rewrite Hlt.
  - intros Hright.
    assert (Hgt : off > 10) by (apply Rnot_le_gt; intros H; apply Hoff in H; lra).
    apply Rgtb_true_iff in Hgt. rewrite Hgt.
    assert (Hlt : Rltb faceCenterX (imageWidth / 2) = false).
    { unfold Rltb. destruct (Rlt_dec faceCenterX (imageWidth / 2)); [lra|].
      reflexivity. }
    now rewrite Hlt.
Qed.

Lemma centering_band_witness :
  exists c : ComplianceCheck.t,
    findCheck "horizontal-centering"
      (checkCompliance 1000 1000 [compliantFace]) = Some c
    /\ (ComplianceCheck.passed c = true <->
        0.4 * 1000 <= 350 + 300 / 2 <= 0.6 * 1000)
    /\ (350 + 300 / 2 < 0.4 * 1000 ->
        ComplianceCheck.message c
        = "Face too far left. Center yourself in the frame."%string)
    /\ (0.6 * 1000 < 350 + 300 / 2 ->
        ComplianceCheck.message c
        = "Face too far right. Center yourself in the frame."%string).
Proof.
  apply (@centering_band 1000 1000 compliantFace). lra.
Defined.

(** ** [checkCompliance]: head tilt of aligned eye landmarks *)

Lemma degrees_half_PI : (PI / 2 * 180) / PI = 90.
Proof. pose proof PI_RGT_0. field. lra. Qed.

Lemma normalizeTilt_small (a : R) : Rabs a <= 90 -> normalizeTilt a = Rabs a.
Proof. intros H. unfold normalizeTilt, Math.abs. cmp_cases. Qed.

Lemma tilt_vertical (p1 p2 : Point.t) :
  Point.x p2 - Point.x p1 = 0 ->
  Point.y p2 - Point.y p1 <> 0 ->
  normalizeTilt (calculateAngle p1 p2) = 90.
Proof.
  intros Hdx Hdy. pose proof PI_RGT_0 as HPI.
  unfold calculateAngle. cbv zeta. rewrite Hdx. unfold Math.atan2.
  destruct (Rlt_dec 0 0); [lra|].
  rewrite normalizeTilt_small.
  - destruct (Rlt_dec 0 (Point.y p2 - Point.y p1)).
    + rewrite degrees_half_PI. apply Rabs_right. lra.
    + destruct (Rlt_dec (Point.y p2 - Point.y p1) 0); [|lra].
      replace (- (PI / 2) * 180 / PI) with (- 90) by (field; lra).
      rewrite Rabs_left1; lra.
  - destruct (Rlt_dec 0 (Point.y p2 - Point.y p1)).
    + rewrite degrees_half_PI. rewrite Rabs_right; lra.
    + destruct (Rlt_dec (Point.y p2 - Point.y p1) 0); [|lra].
      replace (- (PI / 2) * 180 / PI) with (- 90) by (field; lra).
      rewrite Rabs_left1; lra.
Qed.

Lemma tilt_coincident (p1 p2 : Point.t) :
  Point.x p2 - Point.x p1 = 0 ->
  Point.y p2 - Point.y p1 = 0 ->
  normalizeTilt (calculateAngle p1 p2) = 0.
Proof.
  intros Hdx Hdy. pose proof PI_RGT_0 as HPI.
  unfold calculateAngle. cbv zeta. rewrite Hdx, Hdy, atan2_0_0.
  replace (0 * 180 / PI) with 0 by (field; lra).
  apply normalizeTilt_0.
Qed.



(** X4.  Level eye landmarks (equal [y], coincident ones included) give
    [metrics.headTiltDegrees = 0] and pass the head-tilt check;
    vertically aligned ones (equal [x], different [y]) give 90 and fail
    it. *)
Theorem aligned_eyes_tilt (imageWidth imageHeight : R)
    (face : FaceDetectionResult.t) :
  let lm := FaceDetectionResult.landmarks face in
  let result := checkCompliance imageWidth imageHeight [face] in
  let tilt :=
    ComplianceMetrics.headTiltDegrees (ComplianceResult.metrics result) in
  (Point.y (FaceLandmarks.leftEye lm) = Point.y (FaceLandmarks.rightEye lm) ->
   tilt = 0 /\ checkPassed "head-tilt" result = Some true)
  /\ (Point.x (FaceLandmarks.leftEye lm) = Point.x (FaceLandmarks.rightEye lm) ->
      Point.y (FaceLandmarks.leftEye lm)
        <> Point.y (FaceLandmarks.rightEye lm) ->
      tilt = 90 /\ checkPassed "head-tilt" result = Some false).
Proof.
  intros lm result tilt. unfold tilt, result.
  rewrite single_head_tilt_passed, checkCompliance_headTiltDegrees. fold lm.
  split.
  - intros Hy. rewrite normalizeTilt_level by exact Hy.
    split; [reflexivity|]. f_equal. apply Rleb_true_iff. lra.
  - intros Hx Hy. rewrite tilt_vertical by lra.
    split; [reflexivity|]. f_equal. apply Rleb_false_iff. lra.
Qed.

Lemma aligned_eyes_tilt_witness :
  (ComplianceMetrics.headTiltDegrees
     (ComplianceResult.metrics (checkCompliance 1000 1000 [compliantFace]))
   = 0
   /\ checkPassed "head-tilt" (checkCompliance 1000 1000 [compliantFace])
      = Some true)
  /\ (ComplianceMetrics.headTiltDegrees
        (ComplianceResult.metrics
           (checkCompliance 1000 1000
              [faceOf 350 300 300 300 (Point.mk 500 400) (Point.mk 500 460)]))
      = 90
      /\ checkPassed "head-tilt"
           (checkCompliance 1000 1000
              [faceOf 350 300 300 300 (Point.mk 500 400) (Point.mk 500 460)])
         = Some false).
Proof.
  split.
  - apply (proj1 (@aligned_eyes_tilt 1000 1000 compliantFace)).
    reflexivity.
  - apply (proj2 (@aligned_eyes_tilt 1000 1000
             (faceOf 350 300 300 300 (Point.mk 500 400) (Point.mk 500 460))));
      simpl; lra.
Defined.

(** ** The summary helpers on results of [checkCompliance] *)

Lemma forallb_false_exists (A : Type) (p : A -> bool) (l : list A) :
  forallb p l = false -> exists a : A, In a l /\ p a = false.
Proof.
  induction l as [| a l IH]; [discriminate|]. simpl.
  destruct (p a) eqn:Hp.
  - intros H. destruct (IH H) as (b & Hin & Hb). exists b. now split; [right|].
  - intros _. exists a. now split; [left|].
Qed.

Lemma criticalFailure_failing (result : ComplianceResult.t)
    (c : ComplianceCheck.t) :
  criticalFailure result = Some c ->
  In c (ComplianceResult.checks result) /\ ComplianceCheck.passed c = false.
Proof.
  unfold criticalFailure. cbv zeta.
  destruct (find _ (ComplianceResult.checks result)) as [d |] eqn:Hfind.
  - intros [= <-]. apply find_some in Hfind as [Hin Hd].
    apply andb_true_iff in Hd as [Hd _]. apply negb_true_iff in Hd.
    now split.
  - intros Hfind'. apply find_some in Hfind' as [Hin Hd].
    apply negb_true_iff in Hd. now split.
Qed.

Lemma criticalFailure_exists (result : ComplianceResult.t)
    (c : ComplianceCheck.t) :
  In c (ComplianceResult.checks result) ->
  ComplianceCheck.passed c = false ->
  exists d : ComplianceCheck.t, criticalFailure result = Some d.
Proof.
  intros Hin Hc. unfold criticalFailure. cbv zeta.
  destruct (find _ (ComplianceResult.checks result)) as [d |];
    [now exists d|].
  destruct (find (fun c0 => negb (ComplianceCheck.passed c0))
                 (ComplianceResult.checks result)) as [d |] eqn:Hfind;
    [now exists d|].
  apply (find_none _ _ Hfind) in Hin. rewrite Hc in Hin. discriminate.
Qed.

(** X6.  On a result of [checkCompliance] the two helpers agree with the
    verdict: when it passed, [getComplianceErrorMessage] is [null] and
    [getComplianceSummary] is the success text; when it did not, there is
    a failed check whose message [getComplianceErrorMessage] returns, and
    the count in [getComplianceSummary] is between 1 and 5. *)
Theorem helpers_agree_with_verdict (imageWidth imageHeight : R)
    (faces : list FaceDetectionResult.t) :
  let result := checkCompliance imageWidth imageHeight faces in
  let failedCount :=
    List.length (filter (fun c => negb (ComplianceCheck.passed c))
                        (ComplianceResult.checks result)) in
  (ComplianceResult.passed result = true ->
   getComplianceErrorMessage result = None
   /\ getComplianceSummary result
      = "Photo meets all US passport requirements ✓"%string)
  /\ (ComplianceResult.passed result = false ->
      (exists c : ComplianceCheck.t,
          In c (ComplianceResult.checks result)
          /\ ComplianceCheck.passed c = false
          /\ getComplianceErrorMessage result
             = Some (ComplianceCheck.message c))
      /\ (1 <= failedCount <= 5)%nat
      /\ getComplianceSummary result
         = (string_of_nat failedCount ++ " requirement"
            ++ (if (1 <? failedCount)%nat then "s" else "")
            ++ " not met")%string).
Proof.
  intros result failedCount. split.
  - intros Hpassed. unfold getComplianceErrorMessage, getComplianceSummary.
    now rewrite Hpassed.
  - intros Hfailed.
    assert (Hsome : exists a, In a (ComplianceResult.checks result)
                              /\ ComplianceCheck.passed a = false).
    { apply forallb_false_exists. unfold result in *.
      now rewrite <- checkCompliance_passed_every. }
    destruct Hsome as (a & Hin & Ha).
    split; [|split].
    + destruct (criticalFailure_exists result a Hin Ha) as [d Hd].
      destruct (criticalFailure_failing result Hd) as [Hdin Hdf].
      exists d. repeat split; try assumption.
      rewrite getComplianceErrorMessage_critical by exact Hfailed.
      now rewrite Hd.
    + split.
      * assert (Hinf : In a (filter (fun c => negb (ComplianceCheck.passed c))
                                    (ComplianceResult.checks result)))
          by (apply filter_In; split; [exact Hin | now rewrite Ha]).
        unfold failedCount.
        destruct (filter _ (ComplianceResult.checks result));
          [destruct Hinf | simpl; lia].
      * unfold failedCount.
        etransitivity; [apply filter_length_le|].
        unfold result. destruct faces as [| f [| g rest]]; simpl; lia.
    + now apply getComplianceSummary_failed.
Qed.

Lemma helpers_agree_with_verdict_witness :
  getComplianceErrorMessage (checkCompliance 1000 1000 [closeUpFace]) = None
  /\ getComplianceSummary (checkCompliance 1000 1000 [closeUpFace])
     = "Photo meets all US passport requirements ✓"%string.
Proof.
  apply (proj1 (helpers_agree_with_verdict 1000 1000 [closeUpFace])).
  apply closeUpFace_passes.
Defined.

(** ** [cropToPassport]: where the face lands *)

(** [field] takes a decimal literal for an unknown; write the constants
    of the sources as fractions first. *)
Ltac as_fractions :=
  try replace 0.625 with (5 / 8) in * by lra;
  try replace 0.595 with (119 / 200) in * by lra;
  try replace 1.25 with (5 / 4) in * by lra;
  try replace 0.375 with (3 / 8) in * by lra;
  try replace 0.95 with (19 / 20) in * by lra.

Lemma crop_side (height : R) :
  0 < height ->
  outputSize / (outputSize * 0.595 / (height * 1.25))
  = height * 1.25 / 0.595.
Proof. intros H. unfold outputSize. field. lra. Qed.




(** ** [cropToPassport]: the shape of the drawn window *)

Lemma portraitCloseUp_passes :
  ComplianceResult.passed
    (checkCompliance (Image.width portraitImage) (Image.height portraitImage)
                     [portraitCloseUp]) = true.
Proof.
  rewrite single_passed_every, single_passed_flags.
  rewrite checkCompliance_headTiltDegrees, single_horizontalCenterOffset.
  rewrite normalizeTilt_level by reflexivity.
  assert (He : eyeCenterY portraitCloseUp = 450)
    by (unfold eyeCenterY; simpl; lra).
  rewrite He. simpl BoundingBox.height. simpl BoundingBox.originX.
  simpl BoundingBox.width. simpl Image.width. simpl Image.height.
  replace (150 + 500 / 2 - 800 / 2) with 0 by lra. rewrite Rabs_R0.
  simpl forallb. rewrite !andb_true_iff, !Rgeb_true_iff, !Rleb_true_iff.
  repeat split; lra.
Qed.

(** X8.  The drawn source window is not always a square.  When the
    wanted side exceeds the source width the drawn width is the source
    width; when the side fits the source height and the window is not
    pushed in from the bottom, the drawn height is the side.  So for a
    source narrower than the side and at least as high, the drawn window
    is narrower than it is high, and [drawImage] stretches it to the
    square output.  A source smaller than the side in both equal
    dimensions is drawn whole, as a square. *)
Theorem drawn_window_shape (sourceWidth sourceHeight : R)
    (faceData : FaceDetectionResult.t) :
  let g := cropGeometry sourceWidth sourceHeight faceData in
  let side := CropGeometry.sourceCropWidth g in
  (sourceWidth < side ->
   side <= sourceHeight ->
   CropGeometry.idealCropY g < sourceHeight - side ->
   CropGeometry.actualCropWidth g = sourceWidth
   /\ CropGeometry.actualCropHeight g = side
   /\ CropGeometry.actualCropWidth g < CropGeometry.actualCropHeight g)
  /\ (sourceWidth < side ->
      sourceHeight = sourceWidth ->
      CropGeometry.sourceCropX g = 0
      /\ CropGeometry.sourceCropY g = 0
      /\ CropGeometry.actualCropWidth g = sourceWidth
      /\ CropGeometry.actualCropHeight g = sourceHeight).
Proof.
  intros g side. unfold side, g, cropGeometry. cbv zeta. simpl.
  split.
  - intros Hw Hh Hy.
    edestruct clamp_too_large as [_ Hsw]; [exact Hw|].
    edestruct clamp_fits as [_ Hsh]; [exact Hh|].
    rewrite Hsw, Hsh. repeat split. exact Hw.
  - intros Hw Heq.
    edestruct clamp_too_large as [Hx Hsw]; [exact Hw|].
    assert (Hh : sourceHeight
                 < outputSize
                   / (outputSize * 0.595
                      / (BoundingBox.height
                           (FaceDetectionResult.boundingBox faceData)
                         * 1.25))) by lra.
    edestruct clamp_too_large as [Hy Hsh]; [exact Hh|].
    split; [exact Hx|]. split; [exact Hy|]. split; [exact Hsw | exact Hsh].
Qed.

Lemma drawn_window_shape_witness :
  let g := cropGeometry (Image.width portraitImage)
                        (Image.height portraitImage) portraitCloseUp in
  CropGeometry.actualCropWidth g = Image.width portraitImage
  /\ CropGeometry.actualCropHeight g = CropGeometry.sourceCropWidth g
  /\ CropGeometry.actualCropWidth g < CropGeometry.actualCropHeight g.
Proof.
  apply (proj1 (drawn_window_shape (Image.width portraitImage)
                  (Image.height portraitImage) portraitCloseUp));
    unfold cropGeometry, outputSize; simpl; lra.
Defined.

(** ** [checkCompliance] and [cropToPassport] together *)

(** X9.  The framing-margin check raises no false alarm: for a bounding
    box of positive height, whenever the window [cropToPassport] wants
    fits vertically in the image (it starts at or below the top edge and
    ends at or above the bottom edge), the check with id "eye-height"
    passes. *)
Theorem window_fits_then_margin_passes (imageWidth imageHeight : R)
    (face : FaceDetectionResult.t) :
  let g := cropGeometry imageWidth imageHeight face in
  0 < BoundingBox.height (FaceDetectionResult.boundingBox face) ->
  0 <= CropGeometry.idealCropY g ->
  CropGeometry.idealCropY g + CropGeometry.sourceCropHeight g
    <= imageHeight ->
  checkPassed "eye-height" (checkCompliance imageWidth imageHeight [face])
  = Some true.
Proof.
  intros g Hh Htop Hbottom. rewrite single_eye_height_passed. f_equal.
  unfold g, cropGeometry in Htop, Hbottom. cbv zeta in Htop, Hbottom.
  simpl in Htop, Hbottom. fold (eyeCenterY face) in Htop, Hbottom.
  set (h := BoundingBox.height (FaceDetectionResult.boundingBox face)) in *.
  rewrite (crop_side Hh) in Hbottom.
  assert (Hoff : (outputSize - outputSize * 0.625)
                 / (outputSize * 0.595 / (h * 1.25))
                 = h * 1.25 / 0.595 * 0.375)
    by (unfold outputSize; as_fractions; field; lra).
  rewrite Hoff in Htop, Hbottom.
  rewrite andb_true_iff, !Rgeb_true_iff. split; lra.
Qed.

Lemma window_fits_then_margin_passes_witness :
  checkPassed "eye-height" (checkCompliance 1000 1000 [compliantFace])
  = Some true.
Proof.
  apply (@window_fits_then_margin_passes 1000 1000 compliantFace).
  - simpl. lra.
  - unfold cropGeometry, outputSize. simpl. lra.
  - unfold cropGeometry, outputSize. simpl. lra.
Defined.

(** X10.  A face that passed [checkCompliance] has an estimated head of
    at least 150 source pixels, so [cropToPassport] magnifies it by a
    positive factor of at most 357 / 150 = 2.38, and the window it wants
    is at least 600 / 2.38 (more than 252) source pixels wide. *)
Theorem passed_bounds_crop_scale (imageWidth imageHeight : R)
    (faces : list FaceDetectionResult.t) (face : FaceDetectionResult.t)
    (sourceWidth sourceHeight : R) :
  let result := checkCompliance imageWidth imageHeight faces in
  let g := cropGeometry sourceWidth sourceHeight face in
  ComplianceResult.passed result = true ->
  ComplianceResult.faceData result = Some face ->
  0 < CropGeometry.scale g <= 2.38
  /\ 252 < CropGeometry.sourceCropWidth g.
Proof.
  intros result g Hpassed Hface.
  destruct (checkCompliance_passed_single _ _ _ Hpassed) as [f ->].
  assert (f = face) by (unfold result in Hface; simpl in Hface; congruence).
  subst f.
  assert (Hflags : forall b,
             In b (map ComplianceCheck.passed
                       (ComplianceResult.checks result)) -> b = true).
  { intros b Hb. unfold result in *.
    rewrite single_passed_every in Hpassed.
    rewrite forallb_forall in Hpassed. now apply Hpassed. }
  unfold result in Hflags. rewrite single_passed_flags in Hflags.
  assert (Hhead : BoundingBox.height (FaceDetectionResult.boundingBox face)
                  * 1.25 >= 150)
    by (apply Rgeb_true_iff, Hflags; simpl; tauto).
  unfold g, cropGeometry. cbv zeta. simpl.
  set (h := BoundingBox.height (FaceDetectionResult.boundingBox face)) in *.
  assert (Hh : 0 < h) by lra.
  rewrite (crop_side Hh).
  assert (Hscale : outputSize * 0.595 / (h * 1.25) = 357 / (h * 1.25))
    by (unfold outputSize; as_fractions; field; lra).
  rewrite Hscale.
  assert (Hinv : 0 < / (h * 1.25) <= / 150).
  { split; [apply Rinv_0_lt_compat; lra|].
    apply Rinv_le_contravar; lra. }
  unfold Rdiv at 1 2. split; [nra|].
  assert (Hs : h * 1.25 / 0.595 = h * 1.25 * (/ 0.595)) by reflexivity.
  assert (H595 : / 0.595 > 1.68).
  { replace (/ 0.595) with (200 / 119) by (as_fractions; field). lra. }
  rewrite Hs. nra.
Qed.

Lemma passed_bounds_crop_scale_witness :
  0 < CropGeometry.scale (cropGeometry 1000 1000 closeUpFace) <= 2.38
  /\ 252 < CropGeometry.sourceCropWidth (cropGeometry 1000 1000 closeUpFace).
Proof.
  apply (@passed_bounds_crop_scale 1000 1000 [closeUpFace] closeUpFace
           1000 1000).
  - apply closeUpFace_passes.
  - reflexivity.
Defined.

(** ** [extractLandmarks] and [detectFaces] *)

Lemma scaled_within (k w : R) : 0 <= w -> 0 <= k <= 1 -> 0 <= k * w <= w.
Proof. intros Hw Hk. split; nra. Qed.

(** X11.  Landmarks stay inside the image: for an image of non-negative
    dimensions and keypoints with coordinates in [[0, 1]], the four
    landmarks [extractLandmarks] returns lie in
    [[0, imageWidth] x [0, imageHeight]]. *)
Theorem extractLandmarks_within_image (detection : Detection.t)
    (imageWidth imageHeight : R) :
  0 <= imageWidth ->
  0 <= imageHeight ->
  (forall (keypoints : list NormalizedKeypoint.t) (k : NormalizedKeypoint.t),
      Detection.keypoints detection = Some keypoints ->
      In k keypoints ->
      0 <= NormalizedKeypoint.x k <= 1 /\ 0 <= NormalizedKeypoint.y k <= 1) ->
  let lm := extractLandmarks detection imageWidth imageHeight in
  forall p : Point.t,
    In p [FaceLandmarks.leftEye lm; FaceLandmarks.rightEye lm;
          FaceLandmarks.nose lm; FaceLandmarks.mouth lm] ->
    0 <= Point.x p <= imageWidth /\ 0 <= Point.y p <= imageHeight.
Proof.
  intros Hw Hh Hunit lm p Hp. unfold lm, extractLandmarks in Hp.
  cbv zeta in Hp.
  destruct (Detection.keypoints detection) as [keypoints |] eqn:Hk.
  - destruct keypoints as [| k0 [| k1 [| k2 [| k3 rest]]]];
      try (simpl in Hp;
           destruct Hp as [<- | [<- | [<- | [<- | []]]]]; simpl; lra).
    pose proof (Hunit _ k0 eq_refl (or_introl eq_refl)) as [H0x H0y].
    pose proof (Hunit _ k1 eq_refl (or_intror (or_introl eq_refl)))
      as [H1x H1y].
    pose proof (Hunit _ k2 eq_refl
                  (or_intror (or_intror (or_introl eq_refl)))) as [H2x H2y].
    pose proof (Hunit _ k3 eq_refl
                  (or_intror (or_intror (or_intror (or_introl eq_refl)))))
      as [H3x H3y].
    simpl in Hp.
    destruct Hp as [<- | [<- | [<- | [<- | []]]]]; simpl;
      split; now apply scaled_within.
  - simpl in Hp. destruct Hp as [<- | [<- | [<- | [<- | []]]]]; simpl; lra.
Qed.

Lemma extractLandmarks_within_image_witness :
  0 <= Point.x (FaceLandmarks.leftEye
                  (extractLandmarks sampleDetection 1000 1000)) <= 1000
  /\ 0 <= Point.y (FaceLandmarks.leftEye
                     (extractLandmarks sampleDetection 1000 1000)) <= 1000.
Proof.
  apply (@extractLandmarks_within_image sampleDetection 1000 1000);
    [lra | lra | | simpl; now left].
  intros keypoints k Hk Hin. simpl in Hk. injection Hk as <-.
  simpl in Hin.
  destruct Hin as [<- | [<- | [<- | [<- | [<- | [<- | []]]]]]]; simpl; lra.
Defined.

Lemma extractLandmarks_few (detection : Detection.t)
    (imageWidth imageHeight : R) :
  (forall keypoints : list NormalizedKeypoint.t,
      Detection.keypoints detection = Some keypoints ->
      (List.length keypoints < 4)%nat) ->
  extractLandmarks detection imageWidth imageHeight
  = FaceLandmarks.mk (Point.mk 0 0) (Point.mk 0 0) (Point.mk 0 0)
                     (Point.mk 0 0).
Proof.
  intros Hfew. unfold extractLandmarks. cbv zeta.
  destruct (Detection.keypoints detection) as [keypoints |]; [|reflexivity].
  specialize (Hfew keypoints eq_refl).
  apply Nat.leb_gt in Hfew. now rewrite Hfew.
Qed.

(** A face without a bounding-box height fails the head-size check. *)
Lemma no_height_fails (imageWidth imageHeight : R)
    (face : FaceDetectionResult.t) :
  BoundingBox.height (FaceDetectionResult.boundingBox face) = 0 ->
  ComplianceResult.passed (checkCompliance imageWidth imageHeight [face])
  = false.
Proof.
  intros Hh. rewrite single_passed_every, single_passed_flags. rewrite Hh.
  assert (Hf : Rgeb (0 * 1.25) 150 = false) by (apply Rgeb_false_iff; lra).
  rewrite Hf. reflexivity.
Qed.

(** A face whose eyes are both at y = 0 fails the head-size check or the
    framing-margin check. *)
Lemma eyes_at_top_fail (imageWidth imageHeight : R)
    (face : FaceDetectionResult.t) :
  eyeCenterY face = 0 ->
  ComplianceResult.passed (checkCompliance imageWidth imageHeight [face])
  = false.
Proof.
  intros He. rewrite single_passed_every, single_passed_flags. rewrite He.
  set (h := BoundingBox.height (FaceDetectionResult.boundingBox face)).
  destruct (Rgeb (h * 1.25) 150) eqn:Hhead.
  - apply Rgeb_true_iff in Hhead.
    assert (Hm : Rgeb 0 (h / 0.595 * (1 - 0.625) * 0.95) = false).
    { apply Rgeb_false_iff.
      assert (H595 : 0 < / 0.595) by (apply Rinv_0_lt_compat; lra).
      unfold Rdiv. nra. }
    rewrite Hm. reflexivity.
  - reflexivity.
Qed.

(** X12.  A single detection that lacks its bounding box, or that has
    fewer than four keypoints (so that [extractLandmarks] puts every
    landmark at the origin), never passes [checkCompliance], whatever
    the image and the rest of the detection. *)
Theorem incomplete_detection_never_passes (detection : Detection.t)
    (imageElement : Image.t) (faces : list FaceDetectionResult.t) :
  Detection.boundingBox detection = None
  \/ (forall keypoints : list NormalizedKeypoint.t,
         Detection.keypoints detection = Some keypoints ->
         (List.length keypoints < 4)%nat) ->
  detectFaces (inr [detection]) imageElement = inr faces ->
  ComplianceResult.passed
    (checkCompliance (Image.width imageElement) (Image.height imageElement)
                     faces) = false.
Proof.
  intros Hinc Hdet. simpl in Hdet. injection Hdet as <-.
  destruct Hinc as [Hbox | Hfew].
  - apply no_height_fails. unfold toFaceDetectionResult. cbv zeta.
    now rewrite Hbox.
  - apply eyes_at_top_fail. unfold eyeCenterY, toFaceDetectionResult.
    cbv zeta. simpl FaceDetectionResult.landmarks.
    rewrite (extractLandmarks_few _ _ _ Hfew). simpl. lra.
Qed.

Lemma incomplete_detection_never_passes_witness :
  ComplianceResult.passed
    (checkCompliance 1000 1000
       [toFaceDetectionResult 1000 1000
          (Detection.mk (Some (BoundingBox.mk 350 300 300 300)) None
                        (Some [Category.mk 0.93]))]) = false.
Proof.
  apply (@incomplete_detection_never_passes
           (Detection.mk (Some (BoundingBox.mk 350 300 300 300)) None
                         (Some [Category.mk 0.93]))
           (Image.mk 1000 1000)).
  - right. intros keypoints Hk. discriminate Hk.
  - reflexivity.
Defined.

(** [detectFaces] yields one result per detection, in the
    detector's order, so [metrics.faceCount] is the number of
    detections, and anything but exactly one detection fails the
    face-count check; an error of the detector comes back with the
    prefix "Face detection failed: ". *)
Theorem detectFaces_counts_detections (imageElement : Image.t) :
  (forall detections : list Detection.t,
      exists faces : list FaceDetectionResult.t,
        detectFaces (inr detections) imageElement = inr faces
        /\ List.length faces = List.length detections
        /\ (forall (i : nat) (d : Detection.t),
               nth_error detections i = Some d ->
               nth_error faces i
               = Some (toFaceDetectionResult (Image.width imageElement)
                         (Image.height imageElement) d))
        /\ ComplianceMetrics.faceCount
             (ComplianceResult.metrics
                (checkCompliance (Image.width imageElement)
                                 (Image.height imageElement) faces))
           = List.length detections
        /\ (List.length detections <> 1%nat ->
            ComplianceResult.passed
              (checkCompliance (Image.width imageElement)
                               (Image.height imageElement) faces) = false))
  /\ (forall message : string,
         detectFaces (inl message) imageElement
         = inl ("Face detection failed: " ++ message)%string).
Proof.
  split; [|reflexivity].
  intros detections. eexists. split; [reflexivity|].
  assert (Hlen : List.length
                   (map (toFaceDetectionResult (Image.width imageElement)
                           (Image.height imageElement)) detections)
                 = List.length detections) by apply length_map.
  split; [exact Hlen|]. split; [|split].
  - intros i d Hd. now apply map_nth_error.
  - rewrite <- Hlen.
    destruct (map _ detections) as [| f [| g rest]]; reflexivity.
  - rewrite <- Hlen.
    destruct (map _ detections) as [| f [| g rest]];
      [reflexivity | intros H; now contradiction H | reflexivity].
Qed.

(** ** [processPassportPhoto] *)

Section ProcessorProperties.

Variable Blob : Type.
Variable toDataURL : Canvas.t -> string -> R -> string.
Variable toBlob : Canvas.t -> string -> R -> option Blob.

Let process := processPassportPhoto toDataURL toBlob.

Ltac proj_result :=
  cbn [ProcessingResult.compliance ProcessingResult.originalImage
       ProcessingResult.croppedCanvas ProcessingResult.croppedDataURL
       ProcessingResult.croppedBlob].

(** X13.  Whenever [processPassportPhoto] returns a result, the result
    carries the verdict of [checkCompliance] on the detected faces and
    the original image; the cropped canvas, data URL and blob are present
    together or absent together; and they are present exactly when the
    photo passed, the canvas then being 600 x 600. *)
Theorem process_crops_exactly_when_passed (initError : option string)
    (detected : string + list Detection.t) (hasContext : bool)
    (imageElement : Image.t) (result : ProcessingResult.t Blob) :
  process initError detected hasContext imageElement = inr result ->
  (exists faces : list FaceDetectionResult.t,
      detectFaces detected imageElement = inr faces
      /\ ProcessingResult.compliance result
         = checkCompliance (Image.width imageElement)
                           (Image.height imageElement) faces)
  /\ ProcessingResult.originalImage result = imageElement
  /\ (ComplianceResult.passed (ProcessingResult.compliance result) = true ->
      exists (canvas : Canvas.t) (url : string) (blob : Blob),
        ProcessingResult.croppedCanvas result = Some canvas
        /\ ProcessingResult.croppedDataURL result = Some url
        /\ ProcessingResult.croppedBlob result = Some blob
        /\ Canvas.width canvas = 600 /\ Canvas.height canvas = 600)
  /\ (ComplianceResult.passed (ProcessingResult.compliance result) = false ->
      ProcessingResult.croppedCanvas result = None
      /\ ProcessingResult.croppedDataURL result = None
      /\ ProcessingResult.croppedBlob result = None).
Proof.
  unfold process, processPassportPhoto.
  destruct initError as [message |]; [discriminate|].
  destruct (detectFaces detected imageElement) as [e | faces]; [discriminate|].
  cbv zeta.
  set (compliance := checkCompliance (Image.width imageElement)
                                     (Image.height imageElement) faces).
  destruct (ComplianceResult.passed compliance) eqn:Hpassed.
  - assert (Hface : exists face, ComplianceResult.faceData compliance
                                 = Some face).
    { destruct (checkCompliance_passed_single _ _ _ Hpassed) as [face Hf].
      exists face. unfold compliance. now rewrite Hf. }
    destruct Hface as [face Hface]. rewrite Hface.
    unfold cropToPassport, canvasToBlob.
    destruct hasContext; [|discriminate]. simpl negb. cbv iota.
    destruct (toBlob _ _ _) as [blob |] eqn:Hblob; [|discriminate].
    intros [= <-]. proj_result.
    split; [exists faces; now split|]. split; [reflexivity|].
    split.
    + intros _. do 3 eexists. repeat split.
    + rewrite Hpassed. discriminate.
  - intros [= <-]. proj_result.
    split; [exists faces; now split|]. split; [reflexivity|].
    split.
    + rewrite Hpassed. discriminate.
    + intros _. repeat split.
Qed.

(** X14.  Once the detector is initialised and has answered, a photo
    that does not pass is never an error: [processPassportPhoto] returns
    its verdict without any crop, whether or not a canvas context or a
    blob can be had.  A photo that passes is cropped when both can be
    had, and the call fails with the canvas or the blob error message
    otherwise. *)
Theorem process_outcomes (detections : list Detection.t) (hasContext : bool)
    (imageElement : Image.t) :
  let faces :=
    map (toFaceDetectionResult (Image.width imageElement)
                               (Image.height imageElement)) detections in
  let compliance :=
    checkCompliance (Image.width imageElement) (Image.height imageElement)
                    faces in
  (ComplianceResult.passed compliance = false ->
   process None (inr detections) hasContext imageElement
   = inr (ProcessingResult.mk compliance None None None imageElement))
  /\ (ComplianceResult.passed compliance = true ->
      hasContext = false ->
      process None (inr detections) hasContext imageElement
      = inl "Failed to get canvas context"%string)
  /\ (ComplianceResult.passed compliance = true ->
      hasContext = true ->
      forall canvas : Canvas.t,
        option_map (cropToPassport true imageElement)
                   (ComplianceResult.faceData compliance)
        = Some (inr canvas) ->
        match toBlob canvas "image/jpeg" 0.95 with
        | Some blob =>
            process None (inr detections) hasContext imageElement
            = inr (ProcessingResult.mk compliance (Some canvas)
                     (Some (toDataURL canvas "image/jpeg" 0.95))
                     (Some blob) imageElement)
        | None =>
            process None (inr detections) hasContext imageElement
            = inl "Failed to create blob from canvas"%string
        end).
Proof.
  intros faces compliance. unfold process, processPassportPhoto.
  simpl detectFaces. cbv zeta. subst compliance faces.
  split; [|split].
  - intros Hfailed. now rewrite Hfailed.
  - intros Hpassed ->. rewrite Hpassed.
    destruct (checkCompliance_passed_single _ _ _ Hpassed) as [face Hf].
    rewrite Hf. reflexivity.
  - intros Hpassed -> canvas Hcanvas. rewrite Hpassed.
    destruct (ComplianceResult.faceData _) as [face |]; [|discriminate].
    cbn [option_map] in Hcanvas.
    assert (Hc : cropToPassport true imageElement face = inr canvas)
      by congruence.
    rewrite Hc.
    unfold canvasToBlob, canvasToDataURL.
    destruct (toBlob canvas "image/jpeg" 0.95); reflexivity.
Qed.

End ProcessorProperties.

Lemma process_crops_exactly_when_passed_witness :
  let result :=
    ProcessingResult.mk (checkCompliance 1000 1000 []) None None
                        (@None unit) (Image.mk 1000 1000) in
  (exists faces : list FaceDetectionResult.t,
      detectFaces (inr []) (Image.mk 1000 1000) = inr faces
      /\ ProcessingResult.compliance result
         = checkCompliance 1000 1000 faces)
  /\ ProcessingResult.originalImage result = Image.mk 1000 1000
  /\ (ComplianceResult.passed (ProcessingResult.compliance result) = true ->
      exists (canvas : Canvas.t) (url : string) (blob : unit),
        ProcessingResult.croppedCanvas result = Some canvas
        /\ ProcessingResult.croppedDataURL result = Some url
        /\ ProcessingResult.croppedBlob result = Some blob
        /\ Canvas.width canvas = 600 /\ Canvas.height canvas = 600)
  /\ (ComplianceResult.passed (ProcessingResult.compliance result) = false ->
      ProcessingResult.croppedCanvas result = None
      /\ ProcessingResult.croppedDataURL result = None
      /\ ProcessingResult.croppedBlob result = None).
Proof.
  apply (@process_crops_exactly_when_passed unit
           (fun _ _ _ => "data:image/jpeg;base64,"%string)
           (fun _ _ _ => Some tt)
           None (inr []) true (Image.mk 1000 1000)).
  reflexivity.
Defined.

Lemma process_outcomes_witness :
  processPassportPhoto
    (fun _ _ _ => "data:image/jpeg;base64,"%string)
    (fun _ _ _ => @None unit)
    None (inr []) false (Image.mk 1000 1000)
  = inr (ProcessingResult.mk (checkCompliance 1000 1000 []) None None None
                             (Image.mk 1000 1000)).
Proof.
  apply (proj1 (@process_outcomes unit
                  (fun _ _ _ => "data:image/jpeg;base64,"%string)
                  (fun _ _ _ => None)
                  [] false (Image.mk 1000 1000))).
  reflexivity.
Defined.

(** ** [exportAsPrintSheet]: the layout of the sheet *)

Section PrintSheet.

Variables imgData today filename : string.
Variable getTextWidth : R -> string -> R.

Let doc := exportAsPrintSheet imgData today getTextWidth filename.

Lemma print_sheet_photo_positions (d f : string) (x y w h : R) :
  In (AddImage d f x y w h) (PdfDocument.ops doc) ->
  d = imgData /\ f = "PNG"%string /\ w = 2 /\ h = 2
  /\ (x = 0 \/ x = 2 + 0.1) /\ (y = 0 \/ y = 2 + 0.1).
Proof.
  unfold doc, exportAsPrintSheet. cbv zeta.
  cbn [PdfDocument.ops map app In Point.x Point.y].
  intros H.
  repeat (destruct H as [H | H];
          [try discriminate H; injection H as <- <- <- <- <- <-;
           repeat split; auto |]).
  destruct H.
Qed.

(** X15.  The print sheet is a 4 x 6 inch page with the photo placed four
    times as a 2 x 2 inch square, each with a cut rectangle of the same
    place and size.  The squares do not overlap and all end above the
    bottom edge, but the two of the right-hand column end at x = 4.1,
    a tenth of an inch beyond the right edge of the page. *)
Theorem print_sheet_layout :
  PdfDocument.formatWidth doc = 4
  /\ PdfDocument.formatHeight doc = 6
  /\ List.length
       (filter (fun op => match op with
                          | AddImage _ _ _ _ _ _ => true
                          | _ => false
                          end) (PdfDocument.ops doc)) = 4%nat
  /\ (forall (d f : string) (x y w h : R),
         In (AddImage d f x y w h) (PdfDocument.ops doc) ->
         d = imgData /\ w = 2 /\ h = 2
         /\ 0 <= x /\ 0 <= y
         /\ y + h <= PdfDocument.formatHeight doc
         /\ In (PdfRect x y w h) (PdfDocument.ops doc))
  /\ (forall (d1 f1 d2 f2 : string) (x1 y1 w1 h1 x2 y2 w2 h2 : R),
         In (AddImage d1 f1 x1 y1 w1 h1) (PdfDocument.ops doc) ->
         In (AddImage d2 f2 x2 y2 w2 h2) (PdfDocument.ops doc) ->
         x1 <> x2 \/ y1 <> y2 ->
         x1 + w1 <= x2 \/ x2 + w2 <= x1 \/ y1 + h1 <= y2 \/ y2 + h2 <= y1)
  /\ (forall y : R,
         In (AddImage imgData "PNG" (2 + 0.1) y 2 2) (PdfDocument.ops doc) ->
         PdfDocument.formatWidth doc < (2 + 0.1) + 2)
  /\ In (AddImage imgData "PNG" (2 + 0.1) 0 2 2) (PdfDocument.ops doc)
  /\ In (AddImage imgData "PNG" (2 + 0.1) (2 + 0.1) 2 2)
        (PdfDocument.ops doc).
Proof.
  split; [reflexivity|]. split; [reflexivity|]. split; [reflexivity|].
  split; [|split; [|split; [|split]]].
  - intros d f x y w h Hin.
    destruct (print_sheet_photo_positions Hin)
      as (-> & -> & -> & -> & Hx & Hy).
    split; [reflexivity|]. split; [reflexivity|]. split; [reflexivity|].
    split; [destruct Hx; lra|]. split; [destruct Hy; lra|].
    split; [simpl; destruct Hy; lra|].
    unfold doc, exportAsPrintSheet. cbv zeta.
    cbn [PdfDocument.ops map app In Point.x Point.y].
    destruct Hx as [-> | ->], Hy as [-> | ->]; tauto.
  - intros d1 f1 d2 f2 x1 y1 w1 h1 x2 y2 w2 h2 H1 H2 Hne.
    destruct (print_sheet_photo_positions H1)
      as (_ & _ & -> & -> & Hx1 & Hy1).
    destruct (print_sheet_photo_positions H2)
      as (_ & _ & -> & -> & Hx2 & Hy2).
    destruct Hx1 as [-> | ->], Hx2 as [-> | ->],
             Hy1 as [-> | ->], Hy2 as [-> | ->];
      try (destruct Hne as [Hne | Hne]; now contradiction Hne);
      lra.
  - intros y _. simpl. lra.
  - unfold doc, exportAsPrintSheet. cbv zeta.
    cbn [PdfDocument.ops map app In Point.x Point.y]. tauto.
  - unfold doc, exportAsPrintSheet. cbv zeta.
    cbn [PdfDocument.ops map app In Point.x Point.y]. tauto.
Qed.

(** X16.  Both texts of the sheet are centred on the 4-inch page,
    whatever width the font gives them: their midpoint is at x = 2.
    They sit at y = 5.8 (the dated label) and y = 5.6 (the cutting
    instruction), below the photos and within the page. *)
Theorem print_sheet_texts_centred (text : string) (x y : R) :
  In (PdfText text x y) (PdfDocument.ops doc) ->
  (text = ("US Passport Photo - " ++ today)%string
   /\ x + getTextWidth 8 text / 2 = PdfDocument.formatWidth doc / 2
   /\ y = 5.8
   \/ text = "Cut along the gray lines"%string
      /\ x + getTextWidth 7 text / 2 = PdfDocument.formatWidth doc / 2
      /\ y = 5.6)
  /\ (2 + 0.1) + 2 < y < PdfDocument.formatHeight doc.
Proof.
  unfold doc, exportAsPrintSheet. cbv zeta.
  cbn [PdfDocument.ops PdfDocument.formatWidth PdfDocument.formatHeight
       map app In Point.x Point.y].
  intros H.
  repeat (destruct H as [H | H]; [try discriminate H |]).
  - injection H as <- <- <-. split; [left; repeat split; lra | lra].
  - injection H as <- <- <-. split; [right; repeat split; lra | lra].
  - destruct H.
Qed.

End PrintSheet.

Lemma print_sheet_texts_centred_witness :
  (("Cut along the gray lines"%string
    = ("US Passport Photo - " ++ "November 2, 2026")%string
    /\ (4 - 1.2) / 2 + 1.2 / 2 = 4 / 2
    /\ 5.6 = 5.8)
   \/ ("Cut along the gray lines"%string = "Cut along the gray lines"%string
       /\ (4 - 1.2) / 2 + 1.2 / 2 = 4 / 2
       /\ 5.6 = 5.6))
  /\ (2 + 0.1) + 2 < 5.6 < 6.
Proof.
  apply (@print_sheet_texts_centred "data:image/png;base64,"
           "November 2, 2026" "passport-photo-print-sheet.pdf"
           (fun _ _ => 1.2) "Cut along the gray lines" ((4 - 1.2) / 2) 5.6).
  unfold exportAsPrintSheet. cbv zeta.
  cbn [PdfDocument.ops map app In]. tauto.
Defined.

(** ** [GuidanceOverlay]: the capture guide *)



(** ** The messages of the checks *)

Lemma endsWith_app (suffix a b : string) :
  endsWith suffix b = true -> endsWith suffix (a ++ b) = true.
Proof.
  intros Hb. induction a as [| c a IH]; [exact Hb|].
  cbn [append endsWith]. rewrite IH. apply orb_true_r.
Qed.

Lemma lastByte_app (a b : string) :
  b <> EmptyString -> lastByte (a ++ b) = lastByte b.
Proof.
  intros Hb. induction a as [| c a IH]; [reflexivity|].
  simpl. destruct (a ++ b)%string eqn:Hab.
  - destruct a; [simpl in Hab; now contradiction Hb | discriminate Hab].
  - exact IH.
Qed.

Lemma endsWith_lastByte (suffix s : string) :
  suffix <> EmptyString ->
  endsWith suffix s = true -> lastByte s = lastByte suffix.
Proof.
  intros Hne. induction s as [| c s IH]; cbn [endsWith].
  - rewrite orb_false_r. intros H. apply String.eqb_eq in H.
    now contradiction Hne.
  - intros H. apply orb_true_iff in H as [H | H].
    + apply String.eqb_eq in H. now rewrite <- H.
    + specialize (IH H). destruct s; [|exact IH].
      cbn [endsWith] in H. rewrite orb_false_r in H.
      apply String.eqb_eq in H. now contradiction Hne.
Qed.

(** A message whose last byte is a full stop does not end with the
    check mark. *)
Lemma full_stop_no_mark (s : string) :
  lastByte s = Some "."%char -> endsWith "✓" s = false.
Proof.
  intros Hlast. destruct (endsWith "✓" s) eqn:He; [|reflexivity].
  apply endsWith_lastByte in He; [|discriminate].
  rewrite Hlast in He. discriminate He.
Qed.

Ltac mark_present :=
  repeat (apply endsWith_app); reflexivity.

Lemma append_nonempty (b c : string) :
  c <> EmptyString -> (b ++ c)%string <> EmptyString.
Proof. intros Hc. destruct b; [exact Hc | discriminate]. Qed.

Lemma lastByte_app3 (a b c : string) :
  c <> EmptyString -> lastByte (a ++ b ++ c) = lastByte c.
Proof.
  intros Hc. rewrite lastByte_app by now apply append_nonempty.
  now apply lastByte_app.
Qed.

Ltac last_is_stop :=
  first [ rewrite lastByte_app3 by discriminate
        | rewrite lastByte_app by discriminate
        | idtac ];
  reflexivity.

Ltac mark_absent := apply full_stop_no_mark; last_is_stop.

Lemma passed_iff_marked (b : bool) (s : string) :
  b = endsWith "✓" s ->
  (b = true <-> endsWith "✓" s = true).
Proof. now intros ->. Qed.

(** X18.  For an image of positive width, in every result of
    [checkCompliance] the message of a check ends with the check mark
    exactly when the check passed; the message of a failed check ends
    with a full stop. *)
Theorem message_marked_iff_passed (imageWidth imageHeight : R)
    (faces : list FaceDetectionResult.t) (c : ComplianceCheck.t) :
  0 < imageWidth ->
  In c (ComplianceResult.checks
          (checkCompliance imageWidth imageHeight faces)) ->
  (ComplianceCheck.passed c = true <->
   endsWith "✓" (ComplianceCheck.message c) = true)
  /\ (ComplianceCheck.passed c = false ->
      lastByte (ComplianceCheck.message c) = Some "."%char).
Proof.
  intros _ Hin.
  assert (Hmark : ComplianceCheck.passed c
                  = endsWith "✓" (ComplianceCheck.message c)
                  /\ (ComplianceCheck.passed c = false ->
                      lastByte (ComplianceCheck.message c) = Some "."%char)).
  { assert (Hfirst : forall fs : list FaceDetectionResult.t,
               ComplianceCheck.passed (faceCountCheck fs)
               = endsWith "✓" (ComplianceCheck.message (faceCountCheck fs))
               /\ (ComplianceCheck.passed (faceCountCheck fs) = false ->
                   lastByte (ComplianceCheck.message (faceCountCheck fs))
                   = Some "."%char)).
    { intros fs. unfold faceCountCheck.
      cbn [ComplianceCheck.passed ComplianceCheck.message].
      destruct (List.length fs) as [| [| n]].
      - split; [symmetry; mark_absent | reflexivity].
      - split; [reflexivity | discriminate].
      - cbn [Nat.eqb Nat.ltb Nat.leb].
        split; [symmetry; mark_absent |].
        intros _. last_is_stop. }
    destruct faces as [| face [| g rest]].
    - destruct Hin as [<- | []]. apply Hfirst.
    - unfold checkCompliance, checkSingleFace, push in Hin.
      cbv zeta in Hin. cbn [app In] in Hin.
      destruct Hin as [<- | [<- | [<- | [<- | [<- | []]]]]];
        [apply (Hfirst [face]) | | | |];
        cbn [ComplianceCheck.passed ComplianceCheck.message];
        unfold Rgeb, Rleb, Rgtb, Rltb;
        repeat match goal with
               | |- context [Rge_dec ?a ?b] => destruct (Rge_dec a b)
               | |- context [Rle_dec ?a ?b] => destruct (Rle_dec a b)
               | |- context [Rgt_dec ?a ?b] => destruct (Rgt_dec a b)
               | |- context [Rlt_dec ?a ?b] => destruct (Rlt_dec a b)
               end;
        try lra;
        cbn [andb negb];
        (split;
         [ first [ symmetry; mark_present | symmetry; mark_absent ]
         | first [ discriminate | intros _; last_is_stop ] ]).
    - destruct Hin as [<- | []]. apply Hfirst. }
  destruct Hmark as [Heq Hstop].
  split; [now apply passed_iff_marked | exact Hstop].
Qed.

Lemma message_marked_iff_passed_witness :
  (ComplianceCheck.passed (faceCountCheck []) = true <->
   endsWith "✓" (ComplianceCheck.message (faceCountCheck [])) = true)
  /\ (ComplianceCheck.passed (faceCountCheck []) = false ->
      lastByte (ComplianceCheck.message (faceCountCheck []))
      = Some "."%char).
Proof.
  apply (@message_marked_iff_passed 1000 1000 [] (faceCountCheck []));
    [lra | simpl; now left].
Defined.

(** * The code in binary64 *)

Section Binary64Properties.

Import PrimFloat.

Local Open Scope float_scope.

(** Two different floats are not equal. *)
Ltac floats_differ H :=
  match type of H with
  | ?a = ?b =>
      apply (f_equal (fun v => PrimFloat.eqb v b)) in H;
      vm_compute in H; discriminate H
  end.








(** Near the right edge the drawn window is smaller than the side it
    should have: in a 1920 x 1080 image the face [edgeFace] wants a
    window of side 842.436974789916 that fits, the clamp moves it to the
    right edge, and [sourceWidth - sourceCropX] gives back
    842.4369747899159; the drawn height is the side. *)
Lemma right_clamped_window_binary64 :
  let g := Binary64.cropGeometry 1920 1080 Binary64.edgeFace in
  let side := Binary64.CropGeometry.sourceCropWidth g in
  side = 0x1.a537eeca37eedp+9
  /\ PrimFloat.leb side 1920 = true
  /\ PrimFloat.ltb (1920 - side) (Binary64.CropGeometry.idealCropX g) = true
  /\ Binary64.CropGeometry.sourceCropX g = 1920 - side
  /\ Binary64.CropGeometry.actualCropWidth g = 0x1.a537eeca37eecp+9
  /\ PrimFloat.ltb (Binary64.CropGeometry.actualCropWidth g) side = true
  /\ Binary64.CropGeometry.actualCropHeight g = side.
Proof. vm_compute. repeat split. Qed.

End Binary64Properties.
